(** * brightray: the Linux notification presenter

    A shallow embedding of [browser/linux/notification_presenter_linux.cc]
    and the properties of it that the specification states.

    The file is a bridge between the application (a delegate per
    notification) and libnotify.  Everything it calls outside of itself
    (the environment, the file enumerator, the libnotify loader, GObject,
    Skia, GTK) is described by a [World]: the answers those collaborators
    give during one call.  What the code does to them is recorded in a
    trace of [Event]s, in program order. *)

From Stdlib Require Import ZArith NArith Ascii String List Bool Lia.
From stdpp Require Import gmap strings list.
Import ListNotations.

Local Open Scope string_scope.
Local Open Scope list_scope.

(** ** Data *)

(** A C pointer; [nullptr] is 0. *)
Definition ptr : Type := N.
Definition nullptr : ptr := 0%N.

Definition is_null (p : ptr) : bool := N.eqb p nullptr.

(** [GError]: the three fields that [log_and_clear_error] prints. *)
Record GError : Type := mkGError {
  domain : N;
  code : Z;
  message : string
}.

(** [SkBitmap] belongs to Skia; the code only asks it [drawsNothing()] and
    hands it to the converter, so a bitmap is its answer and its identity. *)
Record SkBitmap : Type := mkSkBitmap {
  drawsNothing : bool;
  pixels : N
}.

(** A UTF-16 string, as code units. *)
Definition string16 : Type := list N.

(** [content::PlatformNotificationData], the two fields that are read. *)
Record PlatformNotificationData : Type := mkData {
  title : string16;
  body : string16
}.

(** libnotify's [NOTIFY_EXPIRES_DEFAULT]. *)
Definition NOTIFY_EXPIRES_DEFAULT : Z := (-1)%Z.

(** [base::Closure], as this file builds it: the only closure bound here is
    [CancelNotification] on [this] and a notification. *)
Inductive Closure : Type :=
| BindCancelNotification (notification : ptr).

(** [base::FileEnumerator::FileType]. *)
Inductive FileType : Type :=
| FILES
| DIRECTORIES
| INCLUDE_DOT_DOT.

(** ** The outside world *)

Record World : Type := mkWorld {
  (** [getenv] *)
  w_getenv : string -> option string;
  (** the paths a [base::FileEnumerator] over a root path yields for a
      choice of [recursive] and of file type, in the order [Next()] returns
      them *)
  w_files : string -> bool -> FileType -> list string;
  (** whether [LibNotifyLoader::Load] of a library name succeeds *)
  w_load : string -> bool;
  (** [notify_is_initted()] *)
  w_is_initted : bool;
  (** whether [notify_init] with an application name succeeds *)
  w_init : string -> bool;
  (** [GetApplicationName()] *)
  w_application_name : string;
  (** [base::UTF16ToUTF8] *)
  w_utf16_to_utf8 : string16 -> string;
  (** the object [notify_notification_new] returns *)
  w_new_notification : ptr;
  (** the object [libgtk2ui::GdkPixbufFromSkBitmap] returns *)
  w_new_pixbuf : ptr;
  (** the error [notify_notification_show] stores, if any *)
  w_show_error : option GError;
  (** the error [notify_notification_close] stores, if any *)
  w_close_error : option GError
}.

(** ** Effects *)

Inductive Event : Type :=
| EvLogError (context : string) (e : GError)
| EvErrorFree (e : GError)
| EvFileEnumerator (root_path : string) (recursive : bool) (file_type : FileType)
| EvLoad (library_name : string)
| EvNotifyIsInitted
| EvNotifyInit (app_name : string)
| EvNotificationNew (summary text : string) (notification : ptr)
| EvSetDataFull (object : ptr) (key : string) (data : ptr)
| EvSignalConnect (object : ptr) (signal : string)
| EvAddAction (notification : ptr) (action label : string)
| EvGdkPixbufFromSkBitmap (icon : SkBitmap) (pixbuf : ptr)
| EvSetImageFromPixbuf (notification pixbuf : ptr)
| EvSetTimeout (notification : ptr) (timeout : Z)
| EvUnref (object : ptr)
| EvShow (notification : ptr)
| EvClose (notification : ptr)
| EvNotificationDisplayed (delegate : ptr)
| EvNotificationClosed (delegate : ptr)
| EvNotificationClick (delegate : ptr).

(** The process: the two file-level globals, the live GObjects with their
    [g_object_set_data] tables, and the trace. *)
Record Process : Type := mkProcess {
  unity_has_result : bool;
  unity_result : bool;
  gobjects : gmap N (gmap string N);
  trace : list Event
}.

(** The presenter object. [libnotify_loader_] is the name of the library the
    loader holds, if any; [notifications_] is the [GList]. *)
Record NotificationPresenterLinux : Type := mkPresenter {
  libnotify_loader_ : option string;
  notifications_ : list ptr
}.

(** State and failure.  [None] is undefined behaviour (a call through a
    null delegate). *)
Definition M (S A : Type) : Type := S -> option (A * S).

Definition ret {S A} (a : A) : M S A := fun s => Some (a, s).

Definition bind {S A B} (m : M S A) (k : A -> M S B) : M S B :=
  fun s => match m s with
           | Some (a, s') => k a s'
           | None => None
           end.

Definition crash {S A} : M S A := fun _ => None.

Definition gets {S A} (f : S -> A) : M S A := fun s => Some (f s, s).

Definition modify {S} (f : S -> S) : M S unit := fun s => Some (tt, f s).

Declare Scope m_scope.
Delimit Scope m_scope with m.
Notation "x <- m ;; k" := (bind m (fun x => k))
  (at level 100, m at next level, right associativity) : m_scope.
Notation "m ;; k" := (bind m (fun _ => k))
  (at level 100, right associativity) : m_scope.
Local Open Scope m_scope.

(** Code of the anonymous namespace runs on the process; a method runs on
    its object and the process. *)
Definition Method (A : Type) : Type := M (NotificationPresenterLinux * Process) A.

Definition lift {A} (m : M Process A) : Method A :=
  fun s => match m (snd s) with
           | Some (a, p) => Some (a, (fst s, p))
           | None => None
           end.

Definition set_trace (t : list Event) (p : Process) : Process :=
  mkProcess (unity_has_result p) (unity_result p) (gobjects p) t.

Definition set_gobjects (g : gmap N (gmap string N)) (p : Process) : Process :=
  mkProcess (unity_has_result p) (unity_result p) g (trace p).

Definition set_unity_has_result (b : bool) (p : Process) : Process :=
  mkProcess b (unity_result p) (gobjects p) (trace p).

Definition set_unity_result (b : bool) (p : Process) : Process :=
  mkProcess (unity_has_result p) b (gobjects p) (trace p).

Definition set_notifications (l : list ptr) (this : NotificationPresenterLinux)
  : NotificationPresenterLinux :=
  mkPresenter (libnotify_loader_ this) l.

Definition set_loader (l : option string) (this : NotificationPresenterLinux)
  : NotificationPresenterLinux :=
  mkPresenter l (notifications_ this).

Definition emit (e : Event) : M Process unit :=
  modify (fun p => set_trace (trace p ++ [e]) p).

(** ** GLib and GObject *)

Definition g_list_append (l : list ptr) (data : ptr) : list ptr := l ++ [data].

(** Removes the first element that holds [data]; the list is unchanged when
    there is none. *)
Fixpoint g_list_remove (l : list ptr) (data : ptr) : list ptr :=
  match l with
  | [] => []
  | x :: l' => if N.eqb x data then l' else x :: g_list_remove l' data
  end.

Definition heap_alloc (o : ptr) (g : gmap N (gmap string N)) : gmap N (gmap string N) :=
  <[o := ∅]> g.

Definition heap_set_data (o : ptr) (key : string) (data : ptr)
    (g : gmap N (gmap string N)) : gmap N (gmap string N) :=
  match g !! o with
  | Some tbl => <[o := <[key := data]> tbl]> g
  | None => g
  end.

Definition heap_get_data (o : ptr) (key : string) (g : gmap N (gmap string N)) : ptr :=
  match g !! o with
  | Some tbl => default nullptr (tbl !! key)
  | None => nullptr
  end.

Definition heap_free (o : ptr) (g : gmap N (gmap string N)) : gmap N (gmap string N) :=
  delete o g.

Definition g_object_set_data_full (object : ptr) (key : string) (data : ptr) : M Process unit :=
  emit (EvSetDataFull object key data) ;;
  modify (fun p => set_gobjects (heap_set_data object key data (gobjects p)) p).

Definition g_object_get_data (object : ptr) (key : string) : M Process ptr :=
  gets (fun p => heap_get_data object key (gobjects p)).

Definition g_signal_connect (object : ptr) (signal : string) : M Process unit :=
  emit (EvSignalConnect object signal).

Definition g_object_unref (object : ptr) : M Process unit :=
  emit (EvUnref object) ;;
  modify (fun p => set_gobjects (heap_free object (gobjects p)) p).

Definition g_error_free (e : GError) : M Process unit := emit (EvErrorFree e).

Arguments heap_alloc : simpl never.
Arguments heap_set_data : simpl never.
Arguments heap_get_data : simpl never.
Arguments heap_free : simpl never.

(** ** The libraries behind the loader, the enumerator and the converter *)

(** [base::StartsWith (str, search_for, SENSITIVE)]. *)
Definition StartsWith (str search_for : string) : bool := String.prefix search_for str.

(** [FilePath::empty()]. *)
Definition empty_path (path : string) : bool := String.eqb path EmptyString.

(** A [base::FileEnumerator] is the paths it has yet to return: [Next()]
    takes the first of them, and returns the empty path once none is left. *)
Definition FileEnumerator (w : World) (root_path : string) (recursive : bool)
    (file_type : FileType) : M Process (list string) :=
  emit (EvFileEnumerator root_path recursive file_type) ;;
  ret (w_files w root_path recursive file_type).

Definition notify_notification_new (w : World) (summary text : string) : M Process ptr :=
  let notification := w_new_notification w in
  emit (EvNotificationNew summary text notification) ;;
  modify (fun p => set_gobjects (heap_alloc notification (gobjects p)) p) ;;
  ret notification.

Definition notify_notification_add_action (notification : ptr) (action label : string)
  : M Process unit :=
  emit (EvAddAction notification action label).

Definition GdkPixbufFromSkBitmap (w : World) (icon : SkBitmap) : M Process ptr :=
  let pixbuf := w_new_pixbuf w in
  emit (EvGdkPixbufFromSkBitmap icon pixbuf) ;;
  modify (fun p => set_gobjects (heap_alloc pixbuf (gobjects p)) p) ;;
  ret pixbuf.

Definition notify_notification_set_image_from_pixbuf (notification pixbuf : ptr)
  : M Process unit :=
  emit (EvSetImageFromPixbuf notification pixbuf).

Definition notify_notification_set_timeout (notification : ptr) (timeout : Z)
  : M Process unit :=
  emit (EvSetTimeout notification timeout).

(** Both return the [GError] that the call stored through [&error]. *)
Definition notify_notification_show (w : World) (notification : ptr)
  : M Process (option GError) :=
  emit (EvShow notification) ;;
  ret (w_show_error w).

Definition notify_notification_close (w : World) (notification : ptr)
  : M Process (option GError) :=
  emit (EvClose notification) ;;
  ret (w_close_error w).

(** A virtual call on a [content::DesktopNotificationDelegate*]. *)
Definition call_delegate (delegate : ptr) (method : ptr -> Event) : M Process unit :=
  if is_null delegate then crash else emit (method delegate).

Definition NotificationDisplayed (delegate : ptr) : M Process unit :=
  call_delegate delegate EvNotificationDisplayed.

Definition NotificationClosed (delegate : ptr) : M Process unit :=
  call_delegate delegate EvNotificationClosed.

Definition NotificationClick (delegate : ptr) : M Process unit :=
  call_delegate delegate EvNotificationClick.

(** ** The anonymous namespace *)

(** The globals as the program starts. *)
Definition process_start : Process :=
  mkProcess false false ∅ [].

(** The [while] loop of [UnityIsRunning], by recursion on what the
    enumerator has left: [haystack] is what [Next()] returns, and the loop
    ends when that is the empty path. *)
Fixpoint UnityIsRunning_loop (enumerator : list string) : M Process unit :=
  match enumerator with
  | [] => ret tt
  | haystack :: rest =>
      if empty_path haystack then ret tt
      else if StartsWith haystack "/usr/lib/libunity-"
           then modify (set_unity_result true)
           else UnityIsRunning_loop rest
  end.

Definition UnityIsRunning (w : World) : M Process bool :=
  match w_getenv w "ELECTRON_USE_UBUNTU_NOTIFIER" with
  | Some _ => ret true
  | None =>
      has_result <- gets unity_has_result ;;
      if has_result then gets unity_result
      else
        modify (set_unity_has_result true) ;;
        enumerator <- FileEnumerator w "/usr/lib" false FILES ;;
        UnityIsRunning_loop enumerator ;;
        gets unity_result
  end.

Definition log_and_clear_error (error : GError) (context : string) : M Process unit :=
  emit (EvLogError context error) ;;
  g_error_free error.

Definition GetDelegateFromNotification (notification : ptr) : M Process ptr :=
  g_object_get_data notification "delegate".

(** ** NotificationPresenterLinux *)

Definition modify_this (f : NotificationPresenterLinux -> NotificationPresenterLinux)
  : Method unit :=
  modify (fun s => (f (fst s), snd s)).

(** [LibNotifyLoader::Load]: the library is held when loading succeeds. *)
Definition Load (w : World) (library_name : string) : Method bool :=
  lift (emit (EvLoad library_name)) ;;
  if w_load w library_name
  then modify_this (set_loader (Some library_name)) ;; ret true
  else ret false.

Definition notify_is_initted (w : World) : Method bool :=
  lift (emit EvNotifyIsInitted) ;;
  ret (w_is_initted w).

Definition notify_init (w : World) (app_name : string) : Method bool :=
  lift (emit (EvNotifyInit app_name)) ;;
  ret (w_init w app_name).

(** The constructor. *)
Definition new_NotificationPresenterLinux : NotificationPresenterLinux :=
  mkPresenter None [].

(** The short-circuit [a && b] and [!a] of C++, on calls with effects. *)
Definition and_then {S} (a b : M S bool) : M S bool :=
  x <- a ;; if x then b else ret false.

Definition not_ {S} (a : M S bool) : M S bool :=
  x <- a ;; ret (negb x).

Definition Init (w : World) : Method bool :=
  no_library <- and_then (not_ (Load w "libnotify.so.4"))
                  (and_then (not_ (Load w "libnotify.so.1"))
                            (not_ (Load w "libnotify.so"))) ;;
  if no_library then ret false
  else
    no_init <- and_then (not_ (notify_is_initted w))
                        (not_ (notify_init w (w_application_name w))) ;;
    if no_init then ret false
    else ret true.

(** [NotificationPresenter::Create]: the presenter, or [None] for
    [nullptr]. *)
Definition Create (w : World) : M Process (option NotificationPresenterLinux) :=
  fun p =>
    match Init w (new_NotificationPresenterLinux, p) with
    | Some (true, (presenter, p')) => Some (Some presenter, p')
    | Some (false, (_, p')) => Some (None, p')
    | None => None
    end.

Definition DeleteNotification (notification : ptr) : Method unit :=
  modify_this (fun this =>
    set_notifications (g_list_remove (notifications_ this) notification) this) ;;
  lift (g_object_unref notification).

(** [cancel_callback] tells whether the caller passed a closure to fill in;
    the result is the closure stored through it, if one was. *)
Definition ShowNotification (w : World) (data : PlatformNotificationData)
    (icon : SkBitmap) (delegate_ptr : ptr) (cancel_callback : bool)
  : Method (option Closure) :=
  let title := w_utf16_to_utf8 w (title data) in
  let body := w_utf16_to_utf8 w (body data) in
  notification <- lift (notify_notification_new w title body) ;;
  let delegate := delegate_ptr in
  lift (g_object_set_data_full notification "delegate" delegate) ;;
  lift (g_signal_connect notification "closed") ;;
  unity <- lift (UnityIsRunning w) ;;
  (if negb unity
   then lift (notify_notification_add_action notification "default" "View")
   else ret tt) ;;
  (if negb (drawsNothing icon)
   then
     pixbuf <- lift (GdkPixbufFromSkBitmap w icon) ;;
     lift (notify_notification_set_image_from_pixbuf notification pixbuf) ;;
     lift (notify_notification_set_timeout notification NOTIFY_EXPIRES_DEFAULT) ;;
     lift (g_object_unref pixbuf)
   else ret tt) ;;
  error <- lift (notify_notification_show w notification) ;;
  match error with
  | Some e =>
      lift (log_and_clear_error e "notify_notification_show") ;;
      lift (g_object_unref notification) ;;
      ret None
  | None =>
      modify_this (fun this =>
        set_notifications (g_list_append (notifications_ this) notification) this) ;;
      lift (NotificationDisplayed delegate) ;;
      if cancel_callback
      then ret (Some (BindCancelNotification notification))
      else ret None
  end.

Definition CancelNotification (w : World) (notification : ptr) : Method unit :=
  error <- lift (notify_notification_close w notification) ;;
  match error with
  | Some e => lift (log_and_clear_error e "notify_notification_close")
  | None => ret tt
  end ;;
  delegate <- lift (GetDelegateFromNotification notification) ;;
  lift (NotificationClosed delegate) ;;
  DeleteNotification notification.

Definition OnNotificationClosed (notification : ptr) : Method unit :=
  if is_null notification then ret tt
  else
    delegate <- lift (GetDelegateFromNotification notification) ;;
    lift (NotificationClosed delegate) ;;
    DeleteNotification notification.

Definition OnNotificationView (notification : ptr) (action : string) : Method unit :=
  if is_null notification then ret tt
  else
    delegate <- lift (GetDelegateFromNotification notification) ;;
    lift (NotificationClick delegate) ;;
    DeleteNotification notification.

(** Running a closure that [ShowNotification] handed out. *)
Definition Run (w : World) (c : Closure) : Method unit :=
  match c with
  | BindCancelNotification notification => CancelNotification w notification
  end.

(** A run of calls of [UnityIsRunning], each in the world of its moment. *)
Fixpoint UnityIsRunning_calls (ws : list World) : M Process (list bool) :=
  match ws with
  | [] => ret []
  | w :: ws' =>
      r <- UnityIsRunning w ;;
      rs <- UnityIsRunning_calls ws' ;;
      ret (r :: rs)
  end.

(** ** Vocabulary of the statements *)

(** [ELECTRON_USE_UBUNTU_NOTIFIER] is set. *)
Definition env_set (w : World) : bool :=
  match w_getenv w "ELECTRON_USE_UBUNTU_NOTIFIER" with
  | Some _ => true
  | None => false
  end.

(** The enumeration of the files directly in /usr/lib. *)
Definition usr_lib_files (w : World) : list string :=
  w_files w "/usr/lib" false FILES.

(** The enumeration holds a path that starts with "/usr/lib/libunity-". *)
Definition finds_libunity (paths : list string) : Prop :=
  exists path, In path paths /\ StartsWith path "/usr/lib/libunity-" = true.

(** The enumerator's contract: a path it yields is not empty (the empty
    path is how [Next()] says that it is done). *)
Definition well_enumerated (w : World) : Prop :=
  Forall (fun path => path <> EmptyString) (usr_lib_files w).

Definition is_scan (e : Event) : bool :=
  match e with
  | EvFileEnumerator _ _ _ => true
  | _ => false
  end.

(** How many times a trace has enumerated a directory. *)
Definition scans (t : list Event) : nat := length (filter (fun e => is_scan e = true) t).

(** What the loop leaves in [unity_result] when it starts from [false]. *)
Fixpoint scan_finds (enumerator : list string) : bool :=
  match enumerator with
  | [] => false
  | haystack :: rest =>
      if empty_path haystack then false
      else if StartsWith haystack "/usr/lib/libunity-" then true
           else scan_finds rest
  end.

(** The process after the one scan of /usr/lib. *)
Definition scanned (w : World) (p : Process) : Process :=
  mkProcess true (unity_result p || scan_finds (usr_lib_files w))
            (gobjects p) (trace p ++ [EvFileEnumerator "/usr/lib" false FILES]).

(** The world of the first call that gets past the environment test: the
    call that scans, when the process has no result yet. *)
Definition first_scan (ws : list World) : option World :=
  find (fun w => negb (env_set w)) ws.

(** The library names [Init] tries, in its order. *)
Definition libnotify_names : list string :=
  ["libnotify.so.4"; "libnotify.so.1"; "libnotify.so"].

(** The names tried when each is tried only after the ones before it have
    failed to load. *)
Fixpoint tried (load : string -> bool) (names : list string) : list string :=
  match names with
  | [] => []
  | name :: rest => name :: (if load name then [] else tried load rest)
  end.

(** The library names a trace has asked the loader for. *)
Definition loads_of (t : list Event) : list string :=
  flat_map (fun e => match e with EvLoad name => [name] | _ => [] end) t.

(** ** The calls in closed form *)

(** What a call of [UnityIsRunning] returns and leaves. *)
Definition UnityIsRunning_outcome (w : World) (p : Process) : bool * Process :=
  if env_set w then (true, p)
  else if unity_has_result p then (unity_result p, p)
  else (unity_result (scanned w p), scanned w p).

(** The events of one [ShowNotification], in program order. *)
Definition unity_events (w : World) (p : Process) : list Event :=
  if env_set w then []
  else if unity_has_result p then []
  else [EvFileEnumerator "/usr/lib" false FILES].

Definition action_events (w : World) (p : Process) : list Event :=
  if fst (UnityIsRunning_outcome w p) then []
  else [EvAddAction (w_new_notification w) "default" "View"].

Definition icon_events (w : World) (icon : SkBitmap) : list Event :=
  if drawsNothing icon then []
  else [EvGdkPixbufFromSkBitmap icon (w_new_pixbuf w);
        EvSetImageFromPixbuf (w_new_notification w) (w_new_pixbuf w);
        EvSetTimeout (w_new_notification w) NOTIFY_EXPIRES_DEFAULT;
        EvUnref (w_new_pixbuf w)].

Definition outcome_events (w : World) (delegate : ptr) : list Event :=
  match w_show_error w with
  | Some e => [EvLogError "notify_notification_show" e; EvErrorFree e;
               EvUnref (w_new_notification w)]
  | None => [EvNotificationDisplayed delegate]
  end.

Definition show_events (w : World) (data : PlatformNotificationData) (icon : SkBitmap)
    (delegate : ptr) (p : Process) : list Event :=
  [EvNotificationNew (w_utf16_to_utf8 w (title data)) (w_utf16_to_utf8 w (body data))
     (w_new_notification w);
   EvSetDataFull (w_new_notification w) "delegate" delegate;
   EvSignalConnect (w_new_notification w) "closed"]
  ++ unity_events w p ++ action_events w p ++ icon_events w icon
  ++ [EvShow (w_new_notification w)] ++ outcome_events w delegate.

(** The GObjects after one [ShowNotification]. *)
Definition show_heap (w : World) (icon : SkBitmap) (delegate : ptr)
    (g : gmap N (gmap string N)) : gmap N (gmap string N) :=
  let g1 := heap_set_data (w_new_notification w) "delegate" delegate
              (heap_alloc (w_new_notification w) g) in
  let g2 := if drawsNothing icon then g1
            else heap_free (w_new_pixbuf w) (heap_alloc (w_new_pixbuf w) g1) in
  match w_show_error w with
  | Some _ => heap_free (w_new_notification w) g2
  | None => g2
  end.

Definition show_process (w : World) (data : PlatformNotificationData) (icon : SkBitmap)
    (delegate : ptr) (p : Process) : Process :=
  let pu := snd (UnityIsRunning_outcome w p) in
  mkProcess (unity_has_result pu) (unity_result pu)
            (show_heap w icon delegate (gobjects p))
            (trace p ++ show_events w data icon delegate p).

(** The notifications a trace has asked libnotify to show. *)
Definition shows_of (t : list Event) : list ptr :=
  flat_map (fun e => match e with EvShow n => [n] | _ => [] end) t.

(** The actions a trace has added: notification, action and label. *)
Definition actions_of (t : list Event) : list (ptr * string * string) :=
  flat_map (fun e => match e with
                     | EvAddAction n action label => [(n, action, label)]
                     | _ => []
                     end) t.

(** The event converts a bitmap or sets a notification's image. *)
Definition is_image_event (e : Event) : bool :=
  match e with
  | EvGdkPixbufFromSkBitmap _ _ | EvSetImageFromPixbuf _ _ => true
  | _ => false
  end.

(** ** The tracked list and the calls on a presenter *)

(** The delegate a notification carries: what [GetDelegateFromNotification]
    reads. *)
Definition delegate_of (p : Process) (notification : ptr) : ptr :=
  heap_get_data notification "delegate" (gobjects p).

(** The presenter tracks each notification once; the tracked notifications
    are the live GObjects of the process; and each of them is a real object
    that carries a delegate. *)
Definition well_tracked (this : NotificationPresenterLinux) (p : Process) : Prop :=
  List.NoDup (notifications_ this) /\
  (forall n, In n (notifications_ this) <-> is_Some (gobjects p !! n)) /\
  (forall n, In n (notifications_ this) -> n <> nullptr /\ delegate_of p n <> nullptr).

(** The allocator's contract: a new object is not null and is none of the
    live ones.  The pixbuf is allocated only for an icon that draws. *)
Definition fresh_objects (w : World) (icon : SkBitmap) (p : Process) : Prop :=
  w_new_notification w <> nullptr /\
  gobjects p !! w_new_notification w = None /\
  (drawsNothing icon = false ->
   gobjects p !! w_new_pixbuf w = None /\ w_new_pixbuf w <> w_new_notification w).

(** What can be asked of a presenter: the application shows a notification
    or runs a cancel closure, and libnotify delivers the "closed" signal or
    the "default" action. *)
Inductive Call : Type :=
| CallShow (data : PlatformNotificationData) (icon : SkBitmap) (delegate_ptr : ptr)
           (cancel_callback : bool)
| CallCancel (notification : ptr)
| CallClosed (notification : ptr)
| CallView (notification : ptr) (action : string).

Definition run_call (w : World) (c : Call) : Method unit :=
  match c with
  | CallShow data icon delegate_ptr cancel_callback =>
      ShowNotification w data icon delegate_ptr cancel_callback ;; ret tt
  | CallCancel notification => Run w (BindCancelNotification notification)
  | CallClosed notification => OnNotificationClosed notification
  | CallView notification action => OnNotificationView notification action
  end.

(** The calls that the callers can make: a show comes with a delegate and
    fresh objects; a closure is run, and a signal or action is delivered,
    for a notification that is tracked (libnotify may also deliver null).
    A closure run for a notification that is no longer tracked reads a freed
    object, which is undefined behaviour in the source. *)
Definition valid_call (w : World) (c : Call) (this : NotificationPresenterLinux)
    (p : Process) : Prop :=
  match c with
  | CallShow _ icon delegate_ptr _ => delegate_ptr <> nullptr /\ fresh_objects w icon p
  | CallCancel n => In n (notifications_ this)
  | CallClosed n => n = nullptr \/ In n (notifications_ this)
  | CallView n _ => n = nullptr \/ In n (notifications_ this)
  end.

(** The call is a show that succeeds and [n] is its notification. *)
Definition appends (w : World) (c : Call) (n : ptr) : Prop :=
  (exists data icon d cb, c = CallShow data icon d cb) /\
  w_show_error w = None /\ n = w_new_notification w.

(** The call cancels [n], or reports [n] closed or clicked. *)
Definition dismisses (c : Call) (n : ptr) : Prop :=
  n <> nullptr /\
  (c = CallCancel n \/ c = CallClosed n \/ exists action, c = CallView n action).

(** The events of [notify_notification_close] and of the error it may
    report. *)
Definition close_events (w : World) (n : ptr) : list Event :=
  EvClose n ::
  match w_close_error w with
  | Some e => [EvLogError "notify_notification_close" e; EvErrorFree e]
  | None => []
  end.

(** The state after [DeleteNotification], with the events of the call. *)
Definition dismissed (n : ptr) (evs : list Event)
    (this : NotificationPresenterLinux) (p : Process)
  : NotificationPresenterLinux * Process :=
  (set_notifications (g_list_remove (notifications_ this) n) this,
   mkProcess (unity_has_result p) (unity_result p) (heap_free n (gobjects p))
             (trace p ++ evs)).

(** The tracked list after a call. *)
Definition next_notifications (w : World) (c : Call) (l : list ptr) : list ptr :=
  match c with
  | CallShow _ _ _ _ =>
      match w_show_error w with
      | Some _ => l
      | None => g_list_append l (w_new_notification w)
      end
  | CallCancel n => g_list_remove l n
  | CallClosed n | CallView n _ => if is_null n then l else g_list_remove l n
  end.

(** A run of calls, each in the world of its moment. *)
Fixpoint run_calls (cs : list (World * Call)) : Method unit :=
  match cs with
  | [] => ret tt
  | (w, c) :: cs' => run_call w c ;; run_calls cs'
  end.

(** The scans made so far, and the one still to come if no result is
    held. *)
Definition scan_budget (p : Process) : nat :=
  scans (trace p) + (if unity_has_result p then 0 else 1).

(** The calls of a run can each be made when its turn comes. *)
Fixpoint valid_calls (cs : list (World * Call))
    (s : NotificationPresenterLinux * Process) : Prop :=
  match cs with
  | [] => True
  | (w, c) :: cs' =>
      valid_call w c (fst s) (snd s) /\
      forall s', run_call w c s = Some (tt, s') -> valid_calls cs' s'
  end.

(** ** Sample worlds and requests *)

(** [base::UTF16ToUTF8] on text whose code units are all ASCII. *)
Definition ascii_utf8 (s : string16) : string :=
  string_of_list_ascii (map Ascii.ascii_of_N s).

(** No variable set, a /usr/lib without libunity, every library loads. *)
Definition world_plain : World :=
  mkWorld (fun _ => None) (fun _ _ _ => ["/usr/lib/libc.so.6"; "/usr/lib/libnotify.so.4"])
          (fun _ => true) false (fun _ => true) "brightray"
          ascii_utf8 16%N 32%N None None.

(** The same with libunity installed. *)
Definition world_unity : World :=
  mkWorld (fun _ => None) (fun _ _ _ => ["/usr/lib/libc.so.6"; "/usr/lib/libunity-core-6.0.so.9"])
          (fun _ => true) false (fun _ => true) "brightray"
          ascii_utf8 16%N 32%N None None.

(** [world_plain] with ELECTRON_USE_UBUNTU_NOTIFIER set. *)
Definition world_env : World :=
  mkWorld (fun name => if String.eqb name "ELECTRON_USE_UBUNTU_NOTIFIER"
                       then Some "1" else None)
          (fun _ _ _ => ["/usr/lib/libc.so.6"; "/usr/lib/libnotify.so.4"])
          (fun _ => true) false (fun _ => true) "brightray"
          ascii_utf8 16%N 32%N None None.

(** A sample request. *)
Definition sample_data : PlatformNotificationData := mkData [72%N; 105%N] [33%N].
Definition sample_icon : SkBitmap := mkSkBitmap false 1%N.
Definition blank_icon : SkBitmap := mkSkBitmap true 0%N.

(** [world_plain] with a notification daemon that refuses to show. *)
Definition world_show_fails : World :=
  mkWorld (fun _ => None) (fun _ _ _ => ["/usr/lib/libc.so.6"; "/usr/lib/libnotify.so.4"])
          (fun _ => true) false (fun _ => true) "brightray"
          ascii_utf8 16%N 32%N (Some (mkGError 1%N 2%Z "no daemon")) None.

(** A notification daemon that refuses to close. *)
Definition close_failure : GError := mkGError 1%N 3%Z "not open".

Definition world_close_fails : World :=
  mkWorld (fun _ => None) (fun _ _ _ => ["/usr/lib/libc.so.6"; "/usr/lib/libnotify.so.4"])
          (fun _ => true) false (fun _ => true) "brightray"
          ascii_utf8 48%N 64%N None (Some close_failure).

(** A presenter that tracks one notification, 16, shown for delegate 5. *)
Definition tracking_one : NotificationPresenterLinux * Process :=
  (mkPresenter (Some "libnotify.so.4") [16%N],
   show_process world_plain sample_data sample_icon 5%N process_start).

(** Splits on everything the events of a [ShowNotification] depend on. *)
Ltac show_cases w icon p :=
  unfold show_process, show_events, unity_events, action_events, icon_events,
    outcome_events, UnityIsRunning_outcome, scanned;
  destruct (env_set w);
  [|destruct (unity_has_result p);
    [destruct (unity_result p)
    |destruct (unity_result p), (scan_finds (usr_lib_files w))]];
  destruct (drawsNothing icon);
  cbn [fst snd trace unity_result orb app flat_map shows_of actions_of].

(** ** The destructor *)

(** [g_list_free_full]: calls [free_func] on the data of each element, from
    the head on, and frees the list. *)
Fixpoint g_list_free_full (l : list ptr) (free_func : ptr -> M Process unit)
  : M Process unit :=
  match l with
  | [] => ret tt
  | data :: l' => free_func data ;; g_list_free_full l' free_func
  end.

(** [~NotificationPresenterLinux]: takes the presenter, which is no more
    afterwards.  A [GList] that holds nothing is the null pointer. *)
Definition NotificationPresenterLinux_destructor (this : NotificationPresenterLinux)
  : M Process unit :=
  match notifications_ this with
  | [] => ret tt
  | _ :: _ => g_list_free_full (notifications_ this) g_object_unref
  end.

(** ** Vocabulary of the further properties *)


Definition is_displayed (e : Event) : bool :=
  match e with
  | EvNotificationDisplayed _ => true
  | _ => false
  end.

(** The event tells a delegate that its notification is over. *)
Definition is_ended (e : Event) : bool :=
  match e with
  | EvNotificationClosed _ | EvNotificationClick _ => true
  | _ => false
  end.

(** The event is a call on a delegate. *)
Definition is_delegate_event (e : Event) : bool :=
  is_displayed e || is_ended e.

(** The timeouts a trace has set: notification and timeout. *)
Definition timeouts_of (t : list Event) : list (ptr * Z) :=
  flat_map (fun e => match e with EvSetTimeout n timeout => [(n, timeout)] | _ => [] end) t.

(** The objects a trace has dropped a reference of. *)
Definition unrefs_of (t : list Event) : list ptr :=
  flat_map (fun e => match e with EvUnref o => [o] | _ => [] end) t.


(** The event creates a notification, attaches data or connects a signal. *)
Definition is_setup_event (e : Event) : bool :=
  match e with
  | EvNotificationNew _ _ _ | EvSetDataFull _ _ _ | EvSignalConnect _ _ => true
  | _ => false
  end.

(** ** A sample life *)

(** What [Create] returns in [world_plain], in a starting process. *)
Definition created : NotificationPresenterLinux * Process :=
  (mkPresenter (Some "libnotify.so.4") [],
   mkProcess false false ∅
             [EvLoad "libnotify.so.4"; EvNotifyIsInitted; EvNotifyInit "brightray"]).

(** Two shows, the first closed by the daemon, the second cancelled. *)
Definition sample_run : list (World * Call) :=
  [(world_plain, CallShow sample_data sample_icon 5%N true);
   (world_close_fails, CallShow sample_data blank_icon 6%N false);
   (world_plain, CallClosed 16%N);
   (world_close_fails, CallCancel 48%N)].

(** * Properties *)

(** ** UnityIsRunning *)

Lemma UnityIsRunning_loop_run (enumerator : list string) (p : Process) :
  UnityIsRunning_loop enumerator p
  = Some (tt, if scan_finds enumerator then set_unity_result true p else p).
Proof.
  induction enumerator as [|haystack rest IH]; simpl; [reflexivity|].
  destruct (empty_path haystack); [reflexivity|].
  destruct (StartsWith haystack "/usr/lib/libunity-"); [reflexivity|exact IH].
Qed.

Lemma empty_path_false (path : string) :
  path <> EmptyString -> empty_path path = false.
Proof.
  intros H. unfold empty_path. destruct (String.eqb_spec path EmptyString); congruence.
Qed.

Lemma scan_finds_iff (paths : list string) :
  Forall (fun path => path <> EmptyString) paths ->
  scan_finds paths = true <-> finds_libunity paths.
Proof.
  induction 1 as [|path rest Hne _ IH]; simpl.
  - split; [discriminate|]. intros (x & [] & _).
  - rewrite (empty_path_false _ Hne).
    destruct (StartsWith path "/usr/lib/libunity-") eqn:E.
    + split; [|reflexivity]. intros _. exists path. split; [now left|exact E].
    + rewrite IH. split.
      * intros (x & Hin & Hx). exists x. split; [now right|exact Hx].
      * intros (x & [->|Hin] & Hx); [congruence|]. exists x. now split.
Qed.

Lemma UnityIsRunning_run (w : World) (p : Process) :
  UnityIsRunning w p = Some (UnityIsRunning_outcome w p).
Proof.
  unfold UnityIsRunning, UnityIsRunning_outcome, env_set.
  destruct (w_getenv w "ELECTRON_USE_UBUNTU_NOTIFIER"); [reflexivity|].
  unfold bind, gets. destruct (unity_has_result p) eqn:Hhas; [reflexivity|].
  cbn [modify FileEnumerator bind emit ret].
  rewrite UnityIsRunning_loop_run. unfold scanned, usr_lib_files.
  destruct p as [has res g t]; simpl in *.
  destruct (scan_finds (w_files w "/usr/lib" false FILES)); simpl;
    rewrite ?orb_true_r, ?orb_false_r; reflexivity.
Qed.

Lemma UnityIsRunning_calls_cached (ws : list World) (p : Process) :
  unity_has_result p = true ->
  UnityIsRunning_calls ws p
  = Some (map (fun w => if env_set w then true else unity_result p) ws, p).
Proof.
  intros Hhas. induction ws as [|w ws IH]; [reflexivity|].
  cbn [UnityIsRunning_calls]. unfold bind at 1.
  rewrite UnityIsRunning_run. unfold UnityIsRunning_outcome. rewrite Hhas.
  destruct (env_set w) eqn:Henv; unfold bind; rewrite IH; cbn [map]; rewrite Henv;
    reflexivity.
Qed.

Lemma UnityIsRunning_calls_fresh (ws : list World) (p : Process) :
  unity_has_result p = false ->
  UnityIsRunning_calls ws p
  = Some match first_scan ws with
         | None => (map (fun _ => true) ws, p)
         | Some w1 =>
             (map (fun w => if env_set w then true else unity_result (scanned w1 p)) ws,
              scanned w1 p)
         end.
Proof.
  intros Hhas. induction ws as [|w ws IH]; [reflexivity|].
  cbn [UnityIsRunning_calls]. unfold bind at 1.
  rewrite UnityIsRunning_run. unfold UnityIsRunning_outcome. rewrite Hhas.
  unfold first_scan in *. cbn [find map].
  destruct (env_set w) eqn:Henv; cbn [negb].
  - unfold bind. rewrite IH.
    destruct (find (fun w => negb (env_set w)) ws); reflexivity.
  - unfold bind. rewrite UnityIsRunning_calls_cached by reflexivity. reflexivity.
Qed.

Lemma first_scan_unset (ws : list World) (w1 : World) :
  first_scan ws = Some w1 -> In w1 ws /\ env_set w1 = false.
Proof.
  intros H. apply find_some in H. destruct H as [Hin H].
  split; [exact Hin|]. now destruct (env_set w1).
Qed.

Lemma first_scan_none (ws : list World) (w : World) :
  first_scan ws = None -> In w ws -> env_set w = true.
Proof.
  intros H Hin. pose proof (find_none _ _ H w Hin) as Hn. simpl in Hn.
  now destruct (env_set w).
Qed.

(** C6. A call of [UnityIsRunning] returns [true] whenever
    ELECTRON_USE_UBUNTU_NOTIFIER is set.  In a process that starts with no
    result, every call made with the variable unset returns [true] exactly
    when the enumeration of /usr/lib made by the first such call holds a
    path that starts with "/usr/lib/libunity-". *)
Theorem UnityIsRunning_detects (ws : list World) :
  Forall well_enumerated ws ->
  exists rs p',
    UnityIsRunning_calls ws process_start = Some (rs, p') /\
    length rs = length ws /\
    forall (i : nat) (w : World) (r : bool),
      ws !! i = Some w -> rs !! i = Some r ->
      if env_set w then r = true
      else exists w1, first_scan ws = Some w1 /\
                      (r = true <-> finds_libunity (usr_lib_files w1)).
Proof.
  intros Hwell.
  rewrite (UnityIsRunning_calls_fresh ws process_start eq_refl).
  destruct (first_scan ws) as [w1|] eqn:Hfirst.
  - eexists _, _. split; [reflexivity|]. split; [apply length_map|].
    intros i w r Hw Hr. rewrite list_lookup_fmap, Hw in Hr. cbn in Hr.
    injection Hr as <-. destruct (env_set w); [reflexivity|].
    exists w1. split; [reflexivity|]. cbn.
    apply scan_finds_iff.
    destruct (first_scan_unset _ _ Hfirst) as [Hin _].
    rewrite List.Forall_forall in Hwell. exact (Hwell _ Hin).
  - eexists _, _. split; [reflexivity|]. split; [apply length_map|].
    intros i w r Hw Hr. rewrite list_lookup_fmap, Hw in Hr. cbn in Hr.
    injection Hr as <-.
    rewrite (first_scan_none ws w Hfirst); [reflexivity|].
    apply list_elem_of_In. eapply list_elem_of_lookup_2. exact Hw.
Qed.

Lemma UnityIsRunning_detects_witness :
  exists rs p',
    UnityIsRunning_calls [world_env; world_unity; world_plain] process_start
    = Some (rs, p') /\
    length rs = 3 /\
    forall (i : nat) (w : World) (r : bool),
      [world_env; world_unity; world_plain] !! i = Some w -> rs !! i = Some r ->
      if env_set w then r = true
      else exists w1, first_scan [world_env; world_unity; world_plain] = Some w1 /\
                      (r = true <-> finds_libunity (usr_lib_files w1)).
Proof.
  apply (UnityIsRunning_detects [world_env; world_unity; world_plain]).
  repeat constructor; discriminate.
Defined.

Example UnityIsRunning_calls_run :
  option_map fst
    (UnityIsRunning_calls [world_env; world_unity; world_plain; world_env] process_start)
  = Some [true; true; true; true]
  /\ option_map fst
       (UnityIsRunning_calls [world_env; world_plain; world_unity; world_env] process_start)
     = Some [true; false; false; true].
Proof. split; reflexivity. Qed.

Lemma scans_app (t1 t2 : list Event) : scans (t1 ++ t2) = scans t1 + scans t2.
Proof. unfold scans. now rewrite filter_app, length_app. Qed.

Lemma UnityIsRunning_twice (w : World) (p : Process) :
  bind (UnityIsRunning w) (fun _ => UnityIsRunning w) p = UnityIsRunning w p.
Proof.
  unfold bind. rewrite (UnityIsRunning_run w p). unfold UnityIsRunning_outcome.
  destruct (env_set w) eqn:Henv; [|destruct (unity_has_result p) eqn:Hhas];
    rewrite UnityIsRunning_run; unfold UnityIsRunning_outcome;
    rewrite Henv, ?Hhas; reflexivity.
Qed.


(** ** Create and Init *)

(** C5. [Create] returns a presenter exactly when one of "libnotify.so.4",
    "libnotify.so.1", "libnotify.so" loads and libnotify is already
    initialised or [notify_init] with the application name succeeds, and
    [nullptr] otherwise.  The names are tried in that order, each only after
    the ones before it have failed; the presenter holds the first that
    loaded and tracks nothing yet. *)
Theorem Create_presenter_iff (w : World) (p : Process) :
  exists r p' evs,
    Create w p = Some (r, p') /\
    trace p' = trace p ++ evs /\
    loads_of evs = tried (w_load w) libnotify_names /\
    (is_Some r <->
       (exists name, In name libnotify_names /\ w_load w name = true) /\
       (w_is_initted w = true \/ w_init w (w_application_name w) = true)) /\
    (forall presenter, r = Some presenter ->
       libnotify_loader_ presenter = find (w_load w) libnotify_names /\
       notifications_ presenter = []).
Proof.
  destruct p as [has res g t].
  unfold Create, Init, and_then, not_, Load, notify_is_initted, notify_init,
    lift, emit, modify, modify_this, bind, ret.
  cbn.
  destruct (w_load w "libnotify.so.4") eqn:L4; cbn;
  [|destruct (w_load w "libnotify.so.1") eqn:L1; cbn;
    [|destruct (w_load w "libnotify.so") eqn:L0; cbn]];
  try (destruct (w_is_initted w) eqn:I1; cbn;
       [|destruct (w_init w (w_application_name w)) eqn:I2; cbn]);
  (eexists _, _, _; split; [reflexivity|]; split;
   [cbn; rewrite <- ?app_assoc; reflexivity|]; split;
   [cbn; rewrite ?L4, ?L1, ?L0; reflexivity|]; split;
   [|intros presenter [= <-]; cbn; rewrite ?L4, ?L1, ?L0; split; reflexivity]).
  all: lazymatch goal with
       | |- is_Some (Some _) <-> _ =>
           split; [intros _; split; [eexists; split; [|eassumption]; simpl; tauto|auto]
                  |intros _; eexists; reflexivity]
       | |- is_Some None <-> _ =>
           split; [intros [x [=]]|];
           intros [(name & Hin & Hl) Hi]; exfalso; simpl in Hin;
           destruct Hin as [<-|[<-|[<-|[]]]]; destruct Hi; congruence
       end.
Qed.

Example Create_run :
  option_map (fun r => (fst r, trace (snd r))) (Create world_plain process_start)
  = Some (Some (mkPresenter (Some "libnotify.so.4") []),
          [EvLoad "libnotify.so.4"; EvNotifyIsInitted; EvNotifyInit "brightray"]).
Proof. reflexivity. Qed.

(** ** ShowNotification, in closed form *)

Lemma ShowNotification_run (w : World) (data : PlatformNotificationData) (icon : SkBitmap)
    (d : ptr) (cb : bool) (this : NotificationPresenterLinux) (p : Process) :
  ShowNotification w data icon d cb (this, p)
  = match w_show_error w with
    | Some _ => Some (None, (this, show_process w data icon d p))
    | None =>
        if is_null d then None
        else Some (if cb then Some (BindCancelNotification (w_new_notification w)) else None,
                   (set_notifications
                      (g_list_append (notifications_ this) (w_new_notification w)) this,
                    show_process w data icon d p))
    end.
Proof.
  destruct p as [has res g t].
  unfold ShowNotification, notify_notification_new, g_object_set_data_full,
    g_signal_connect, notify_notification_add_action, GdkPixbufFromSkBitmap,
    notify_notification_set_image_from_pixbuf, notify_notification_set_timeout,
    notify_notification_show, log_and_clear_error, g_error_free, g_object_unref,
    NotificationDisplayed, call_delegate, modify_this, lift, emit, modify, crash, bind, ret.
  cbn [fst snd set_trace set_gobjects trace gobjects unity_has_result unity_result].
  rewrite UnityIsRunning_run.
  unfold show_process, show_events, show_heap, unity_events, action_events, icon_events,
    outcome_events, UnityIsRunning_outcome, scanned, NotificationDisplayed, call_delegate.
  cbn [fst snd set_trace set_gobjects trace gobjects unity_has_result unity_result].
  destruct (env_set w) eqn:Henv;
    [|destruct has, res; try destruct (scan_finds (usr_lib_files w))];
    (destruct (drawsNothing icon);
     (destruct (w_show_error w) as [e|]; [|destruct (is_null d); [|destruct cb]])).
  all: cbn -[heap_alloc heap_set_data heap_free]; rewrite <- ?app_assoc; reflexivity.
Qed.

Lemma is_null_false (o : ptr) : o <> nullptr -> is_null o = false.
Proof. intros H. unfold is_null. now apply N.eqb_neq. Qed.

Lemma is_null_true (o : ptr) : is_null o = true -> o = nullptr.
Proof. unfold is_null. apply N.eqb_eq. Qed.

(** C2. When [notify_notification_show] reports an error, the call logs
    it and gives up: after the failed show it only logs, frees the error and
    drops the notification; the presenter, and so the tracked list, is as it
    was; [NotificationDisplayed] is not called; no cancel closure is stored;
    and the show was attempted once. *)
Theorem ShowNotification_error (w : World) (data : PlatformNotificationData)
    (icon : SkBitmap) (d : ptr) (cb : bool) (this : NotificationPresenterLinux)
    (p : Process) (e : GError) :
  w_show_error w = Some e ->
  exists p' evs pre,
    ShowNotification w data icon d cb (this, p) = Some (None, (this, p')) /\
    trace p' = trace p ++ evs /\
    evs = pre ++ [EvShow (w_new_notification w);
                  EvLogError "notify_notification_show" e;
                  EvErrorFree e;
                  EvUnref (w_new_notification w)] /\
    shows_of evs = [w_new_notification w] /\
    forall d', ~ In (EvNotificationDisplayed d') evs.
Proof.
  intros Herr. rewrite ShowNotification_run, Herr.
  exists (show_process w data icon d p), (show_events w data icon d p),
    ([EvNotificationNew (w_utf16_to_utf8 w (title data))
        (w_utf16_to_utf8 w (body data)) (w_new_notification w);
      EvSetDataFull (w_new_notification w) "delegate" d;
      EvSignalConnect (w_new_notification w) "closed"]
     ++ unity_events w p ++ action_events w p ++ icon_events w icon).
  split; [reflexivity|]. split; [reflexivity|]. split.
  - unfold show_events, outcome_events. rewrite Herr, <- !app_assoc. reflexivity.
  - show_cases w icon p; rewrite Herr; (split; [reflexivity|]);
      intros d' Hin; cbn in Hin; intuition discriminate.
Qed.

Lemma ShowNotification_error_witness :
  exists p' evs pre,
    ShowNotification world_show_fails sample_data sample_icon 5%N true
      (new_NotificationPresenterLinux, process_start)
    = Some (None, (new_NotificationPresenterLinux, p')) /\
    trace p' = trace process_start ++ evs /\
    evs = pre ++ [EvShow 16%N;
                  EvLogError "notify_notification_show" (mkGError 1%N 2%Z "no daemon");
                  EvErrorFree (mkGError 1%N 2%Z "no daemon");
                  EvUnref 16%N] /\
    shows_of evs = [16%N] /\
    forall d', ~ In (EvNotificationDisplayed d') evs.
Proof.
  exact (ShowNotification_error world_show_fails sample_data sample_icon 5%N true
           new_NotificationPresenterLinux process_start
           (mkGError 1%N 2%Z "no daemon") eq_refl).
Defined.

Lemma ShowNotification_defined (w : World) (data : PlatformNotificationData)
    (icon : SkBitmap) (d : ptr) (cb : bool) (this : NotificationPresenterLinux)
    (p : Process) :
  (w_show_error w = None -> d <> nullptr) ->
  exists c this',
    ShowNotification w data icon d cb (this, p)
    = Some (c, (this', show_process w data icon d p)).
Proof.
  intros Hd. rewrite ShowNotification_run.
  destruct (w_show_error w) as [e|]; [eexists _, _; reflexivity|].
  rewrite (is_null_false d (Hd eq_refl)). eexists _, _; reflexivity.
Qed.

Lemma unity_events_quiet (w : World) (p : Process) :
  shows_of (unity_events w p) = [] /\ actions_of (unity_events w p) = [] /\
  forall e, In e (unity_events w p) -> is_image_event e = false.
Proof.
  unfold unity_events. destruct (env_set w); [|destruct (unity_has_result p)];
    (split; [reflexivity|]; split; [reflexivity|]);
    intros e Hin; cbn in Hin; intuition (subst; reflexivity).
Qed.

Lemma action_events_quiet (w : World) (p : Process) :
  shows_of (action_events w p) = [] /\
  forall e, In e (action_events w p) -> is_image_event e = false.
Proof.
  unfold action_events. destruct (fst (UnityIsRunning_outcome w p));
    (split; [reflexivity|]);
    intros e Hin; cbn in Hin; intuition (subst; reflexivity).
Qed.

Lemma outcome_events_quiet (w : World) (d : ptr) :
  shows_of (outcome_events w d) = [] /\ actions_of (outcome_events w d) = [] /\
  forall e, In e (outcome_events w d) -> is_image_event e = false.
Proof.
  unfold outcome_events. destruct (w_show_error w);
    (split; [reflexivity|]; split; [reflexivity|]);
    intros e Hin; cbn in Hin; intuition (subst; reflexivity).
Qed.

Lemma shows_of_app (t1 t2 : list Event) : shows_of (t1 ++ t2) = shows_of t1 ++ shows_of t2.
Proof. apply flat_map_app. Qed.

Lemma actions_of_app (t1 t2 : list Event) :
  actions_of (t1 ++ t2) = actions_of t1 ++ actions_of t2.
Proof. apply flat_map_app. Qed.

(** C7. When the icon draws something, [ShowNotification] converts it with
    [GdkPixbufFromSkBitmap] and sets the result as the notification's image,
    once, and only then shows the notification; when the icon draws nothing,
    the call neither converts a bitmap nor sets an image. *)
Theorem ShowNotification_icon (w : World) (data : PlatformNotificationData)
    (icon : SkBitmap) (d : ptr) (cb : bool) (this : NotificationPresenterLinux)
    (p : Process) :
  (w_show_error w = None -> d <> nullptr) ->
  exists c s' evs,
    ShowNotification w data icon d cb (this, p) = Some (c, s') /\
    trace (snd s') = trace p ++ evs /\
    if drawsNothing icon
    then forall e, In e evs -> is_image_event e = false
    else exists pre post,
        evs = pre ++ [EvGdkPixbufFromSkBitmap icon (w_new_pixbuf w);
                      EvSetImageFromPixbuf (w_new_notification w) (w_new_pixbuf w)]
                  ++ post /\
        shows_of pre = [] /\
        shows_of post = [w_new_notification w] /\
        (forall e, In e pre \/ In e post -> is_image_event e = false).
Proof.
  intros Hd.
  destruct (ShowNotification_defined w data icon d cb this p Hd) as (c & this' & ->).
  eexists _, _, _. split; [reflexivity|]. split; [reflexivity|].
  destruct (unity_events_quiet w p) as (Hu1 & _ & Hu3).
  destruct (action_events_quiet w p) as (Ha1 & Ha3).
  destruct (outcome_events_quiet w d) as (Ho1 & _ & Ho3).
  unfold show_events, icon_events. destruct (drawsNothing icon).
  - intros e Hin. rewrite !in_app_iff in Hin. cbn in Hin.
    intuition (subst; first [reflexivity|auto]).
  - exists ([EvNotificationNew (w_utf16_to_utf8 w (title data))
               (w_utf16_to_utf8 w (body data)) (w_new_notification w);
             EvSetDataFull (w_new_notification w) "delegate" d;
             EvSignalConnect (w_new_notification w) "closed"]
            ++ unity_events w p ++ action_events w p),
           ([EvSetTimeout (w_new_notification w) NOTIFY_EXPIRES_DEFAULT;
             EvUnref (w_new_pixbuf w);
             EvShow (w_new_notification w)] ++ outcome_events w d).
    split; [rewrite <- !app_assoc; reflexivity|].
    split; [rewrite !shows_of_app, Hu1, Ha1; reflexivity|].
    split; [rewrite shows_of_app, Ho1; reflexivity|].
    intros e Hin. rewrite !in_app_iff in Hin. cbn in Hin.
    intuition (subst; first [reflexivity|auto]).
Qed.

Lemma ShowNotification_icon_witness :
  exists c s' evs,
    ShowNotification world_plain sample_data sample_icon 5%N true
      (new_NotificationPresenterLinux, process_start) = Some (c, s') /\
    trace (snd s') = trace process_start ++ evs /\
    exists pre post,
      evs = pre ++ [EvGdkPixbufFromSkBitmap sample_icon 32%N;
                    EvSetImageFromPixbuf 16%N 32%N] ++ post /\
      shows_of pre = [] /\
      shows_of post = [16%N] /\
      (forall e, In e pre \/ In e post -> is_image_event e = false).
Proof.
  apply (ShowNotification_icon world_plain sample_data sample_icon 5%N true
           new_NotificationPresenterLinux process_start).
  intros _. discriminate.
Defined.

(** C8. [ShowNotification] adds the action "default" labelled "View" to
    the new notification exactly when its call of [UnityIsRunning] returns
    [false], and adds no other action; with ELECTRON_USE_UBUNTU_NOTIFIER set
    it adds none. *)
Theorem ShowNotification_action (w : World) (data : PlatformNotificationData)
    (icon : SkBitmap) (d : ptr) (cb : bool) (this : NotificationPresenterLinux)
    (p : Process) :
  (w_show_error w = None -> d <> nullptr) ->
  exists unity pu c s' evs,
    UnityIsRunning w p = Some (unity, pu) /\
    ShowNotification w data icon d cb (this, p) = Some (c, s') /\
    trace (snd s') = trace p ++ evs /\
    actions_of evs
    = (if unity then [] else [(w_new_notification w, "default", "View")]) /\
    (env_set w = true -> actions_of evs = []).
Proof.
  intros Hd.
  destruct (ShowNotification_defined w data icon d cb this p Hd) as (c & this' & ->).
  rewrite UnityIsRunning_run.
  exists (fst (UnityIsRunning_outcome w p)), (snd (UnityIsRunning_outcome w p)).
  eexists _, _, _. split; [now destruct (UnityIsRunning_outcome w p)|].
  split; [reflexivity|]. split; [reflexivity|].
  destruct (unity_events_quiet w p) as (_ & Hu2 & _).
  destruct (outcome_events_quiet w d) as (_ & Ho2 & _).
  assert (Hact : actions_of (show_events w data icon d p)
                 = if fst (UnityIsRunning_outcome w p) then []
                   else [(w_new_notification w, "default", "View")]).
  { unfold show_events. rewrite !actions_of_app, Hu2, Ho2.
    unfold action_events, icon_events.
    destruct (fst (UnityIsRunning_outcome w p)), (drawsNothing icon); reflexivity. }
  split; [exact Hact|].
  intros Henv. rewrite Hact. unfold UnityIsRunning_outcome. rewrite Henv. reflexivity.
Qed.

Lemma ShowNotification_action_witness :
  exists unity pu c s' evs,
    UnityIsRunning world_plain process_start = Some (unity, pu) /\
    ShowNotification world_plain sample_data sample_icon 5%N true
      (new_NotificationPresenterLinux, process_start) = Some (c, s') /\
    trace (snd s') = trace process_start ++ evs /\
    actions_of evs = (if unity then [] else [(16%N, "default", "View")]) /\
    (env_set world_plain = true -> actions_of evs = []).
Proof.
  apply (ShowNotification_action world_plain sample_data sample_icon 5%N true
           new_NotificationPresenterLinux process_start).
  intros _. discriminate.
Defined.

Example ShowNotification_run_plain :
  option_map (fun r => (fst r, notifications_ (fst (snd r)), trace (snd (snd r))))
    (ShowNotification world_plain sample_data sample_icon 5%N true
       (new_NotificationPresenterLinux, process_start))
  = Some (Some (BindCancelNotification 16%N), [16%N],
          [EvNotificationNew "Hi" "!" 16%N; EvSetDataFull 16%N "delegate" 5%N;
           EvSignalConnect 16%N "closed"; EvFileEnumerator "/usr/lib" false FILES;
           EvAddAction 16%N "default" "View";
           EvGdkPixbufFromSkBitmap sample_icon 32%N; EvSetImageFromPixbuf 16%N 32%N;
           EvSetTimeout 16%N (-1)%Z; EvUnref 32%N; EvShow 16%N;
           EvNotificationDisplayed 5%N]).
Proof. reflexivity. Qed.

Example ShowNotification_run_unity :
  option_map (fun r => trace (snd (snd r)))
    (ShowNotification world_unity sample_data blank_icon 5%N false
       (new_NotificationPresenterLinux, process_start))
  = Some [EvNotificationNew "Hi" "!" 16%N; EvSetDataFull 16%N "delegate" 5%N;
          EvSignalConnect 16%N "closed"; EvFileEnumerator "/usr/lib" false FILES;
          EvShow 16%N; EvNotificationDisplayed 5%N].
Proof. reflexivity. Qed.

(** ** GLib lists and the GObject heap *)

Lemma g_list_remove_In (l : list ptr) (n x : ptr) :
  List.NoDup l -> In x (g_list_remove l n) <-> In x l /\ x <> n.
Proof.
  induction 1 as [|y l Hy Hnd IH]; simpl; [tauto|].
  destruct (N.eqb_spec y n) as [->|Hne].
  - split.
    + intros Hin. split; [now right|]. intros ->. exact (Hy Hin).
    + intros [[->|Hin] Hx]; [congruence|exact Hin].
  - simpl. rewrite IH. split.
    + intros [->|[Hin Hx]]; [split; [now left|exact Hne]|split; [now right|exact Hx]].
    + intros [[->|Hin] Hx]; [now left|right; now split].
Qed.

Lemma g_list_remove_NoDup (l : list ptr) (n : ptr) :
  List.NoDup l -> List.NoDup (g_list_remove l n).
Proof.
  induction 1 as [|y l Hy Hnd IH]; simpl; [constructor|].
  destruct (N.eqb_spec y n) as [->|Hne]; [exact Hnd|].
  constructor; [|exact IH].
  intros Hin. apply (g_list_remove_In l n y Hnd) in Hin. tauto.
Qed.

Lemma lookup_heap_alloc (o o' : ptr) (g : gmap N (gmap string N)) :
  heap_alloc o g !! o' = if decide (o = o') then Some ∅ else g !! o'.
Proof. unfold heap_alloc. apply lookup_insert. Qed.

Lemma lookup_heap_free (o o' : ptr) (g : gmap N (gmap string N)) :
  heap_free o g !! o' = if decide (o = o') then None else g !! o'.
Proof. unfold heap_free. apply lookup_delete. Qed.

Lemma lookup_heap_set_data (o o' : ptr) (key : string) (data : ptr)
    (g : gmap N (gmap string N)) :
  heap_set_data o key data g !! o'
  = if decide (o = o') then (fun tbl => <[key := data]> tbl) <$> g !! o else g !! o'.
Proof.
  unfold heap_set_data. destruct (g !! o) as [tbl|] eqn:Hg.
  - rewrite lookup_insert. case_decide; reflexivity.
  - case_decide; [subst; rewrite Hg|]; reflexivity.
Qed.

Lemma show_heap_lookup (w : World) (icon : SkBitmap) (d : ptr)
    (g : gmap N (gmap string N)) (o : ptr) :
  (drawsNothing icon = false ->
   g !! w_new_pixbuf w = None /\ w_new_pixbuf w <> w_new_notification w) ->
  show_heap w icon d g !! o
  = if decide (o = w_new_notification w)
    then match w_show_error w with
         | Some _ => None
         | None => Some (<["delegate" := d]> ∅)
         end
    else g !! o.
Proof.
  intros Hpix. unfold show_heap.
  destruct (w_show_error w), (drawsNothing icon);
    rewrite ?lookup_heap_free, ?lookup_heap_alloc, ?lookup_heap_set_data,
      ?lookup_heap_free, ?lookup_heap_alloc, ?lookup_heap_set_data,
      ?lookup_heap_alloc;
    try (destruct (Hpix eq_refl) as [Hnone Hne]);
    repeat case_decide; subst; try congruence; try reflexivity.
Qed.

(** ** The calls that dismiss a notification, in closed form *)

Lemma CancelNotification_run (w : World) (n : ptr)
    (this : NotificationPresenterLinux) (p : Process) :
  CancelNotification w n (this, p)
  = if is_null (delegate_of p n) then None
    else Some (tt, dismissed n (close_events w n
                                ++ [EvNotificationClosed (delegate_of p n); EvUnref n])
                             this p).
Proof.
  destruct p as [has res g t].
  unfold CancelNotification, DeleteNotification, GetDelegateFromNotification,
    notify_notification_close, log_and_clear_error, g_error_free, g_object_get_data,
    g_object_unref, NotificationClosed, call_delegate, dismissed, close_events,
    delegate_of, modify_this, lift, emit, gets, modify, crash, bind, ret.
  cbn [fst snd set_trace set_gobjects trace gobjects unity_has_result unity_result].
  destruct (w_close_error w);
    cbn [fst snd set_trace set_gobjects trace gobjects unity_has_result unity_result];
    destruct (is_null (heap_get_data n "delegate" g)); try reflexivity;
    cbn -[heap_free]; rewrite <- ?app_assoc; reflexivity.
Qed.

Lemma OnNotificationClosed_run (n : ptr) (this : NotificationPresenterLinux)
    (p : Process) :
  OnNotificationClosed n (this, p)
  = if is_null n then Some (tt, (this, p))
    else if is_null (delegate_of p n) then None
    else Some (tt, dismissed n [EvNotificationClosed (delegate_of p n); EvUnref n]
                             this p).
Proof.
  destruct p as [has res g t].
  unfold OnNotificationClosed, DeleteNotification, GetDelegateFromNotification,
    g_object_get_data, g_object_unref, NotificationClosed, call_delegate, dismissed,
    delegate_of, modify_this, lift, emit, gets, modify, crash, bind, ret.
  destruct (is_null n); [reflexivity|].
  cbn [fst snd set_trace set_gobjects trace gobjects unity_has_result unity_result].
  destruct (is_null (heap_get_data n "delegate" g)); try reflexivity;
    cbn -[heap_free]; rewrite <- ?app_assoc; reflexivity.
Qed.

Lemma OnNotificationView_run (n : ptr) (action : string)
    (this : NotificationPresenterLinux) (p : Process) :
  OnNotificationView n action (this, p)
  = if is_null n then Some (tt, (this, p))
    else if is_null (delegate_of p n) then None
    else Some (tt, dismissed n [EvNotificationClick (delegate_of p n); EvUnref n]
                             this p).
Proof.
  destruct p as [has res g t].
  unfold OnNotificationView, DeleteNotification, GetDelegateFromNotification,
    g_object_get_data, g_object_unref, NotificationClick, call_delegate, dismissed,
    delegate_of, modify_this, lift, emit, gets, modify, crash, bind, ret.
  destruct (is_null n); [reflexivity|].
  cbn [fst snd set_trace set_gobjects trace gobjects unity_has_result unity_result].
  destruct (is_null (heap_get_data n "delegate" g)); try reflexivity;
    cbn -[heap_free]; rewrite <- ?app_assoc; reflexivity.
Qed.

(** C10. [OnNotificationClosed] and [OnNotificationView] called with a
    null notification return at once: they do not crash, and the presenter
    (with its tracked list) and the process (with its trace, so no delegate
    call and nothing else) are as they were. *)
Theorem null_callbacks_are_noops (this : NotificationPresenterLinux) (p : Process)
    (action : string) :
  OnNotificationClosed nullptr (this, p) = Some (tt, (this, p)) /\
  OnNotificationView nullptr action (this, p) = Some (tt, (this, p)).
Proof. split; reflexivity. Qed.

(** ** The tracked list *)

Lemma delegate_of_show_process (w : World) (data : PlatformNotificationData)
    (icon : SkBitmap) (d : ptr) (p : Process) (o : ptr) :
  (drawsNothing icon = false ->
   gobjects p !! w_new_pixbuf w = None /\ w_new_pixbuf w <> w_new_notification w) ->
  delegate_of (show_process w data icon d p) o
  = if decide (o = w_new_notification w)
    then match w_show_error w with Some _ => nullptr | None => d end
    else delegate_of p o.
Proof.
  intros Hpix. unfold delegate_of, show_process, heap_get_data. cbn [gobjects].
  rewrite (show_heap_lookup w icon d (gobjects p) o Hpix).
  case_decide; [|reflexivity].
  destruct (w_show_error w); [reflexivity|].
  now rewrite lookup_insert_eq.
Qed.

Lemma tracked_is_live (this : NotificationPresenterLinux) (p : Process) (n : ptr) :
  well_tracked this p -> gobjects p !! n = None -> ~ In n (notifications_ this).
Proof.
  intros (_ & Hlive & _) Hnone Hin. apply Hlive in Hin.
  rewrite Hnone in Hin. now destruct Hin.
Qed.

Lemma show_well_tracked (w : World) (data : PlatformNotificationData)
    (icon : SkBitmap) (d : ptr) (this : NotificationPresenterLinux) (p : Process) :
  well_tracked this p -> d <> nullptr -> fresh_objects w icon p ->
  well_tracked
    (match w_show_error w with
     | Some _ => this
     | None => set_notifications
                 (g_list_append (notifications_ this) (w_new_notification w)) this
     end)
    (show_process w data icon d p).
Proof.
  intros Hwt Hd (Hn & Hfresh & Hpix).
  pose proof (tracked_is_live this p _ Hwt Hfresh) as Hnew.
  destruct Hwt as (Hnd & Hlive & Hdel).
  assert (Hlook := fun o => show_heap_lookup w icon d (gobjects p) o Hpix).
  assert (Hdeleg := fun o => delegate_of_show_process w data icon d p o Hpix).
  destruct (w_show_error w) as [e|]; unfold well_tracked;
    unfold g_list_append; cbn [notifications_ set_notifications].
  - split; [exact Hnd|]. split.
    + intros n. unfold show_process. cbn [gobjects]. rewrite Hlook.
      case_decide; [subst n|apply Hlive].
      split; [contradiction|]. intros [x Hx]. discriminate.
    + intros n Hin. rewrite Hdeleg.
      case_decide; [subst n; contradiction|apply Hdel, Hin].
  - split; [|split].
    + apply List.NoDup_app; [exact Hnd|repeat constructor; intros []|].
      intros x Hx [<-|[]]. contradiction.
    + intros n. unfold show_process. cbn [gobjects]. rewrite Hlook, in_app_iff.
      case_decide; [subst n|].
      * split; [intros _; eexists; reflexivity|intros _; right; now left].
      * rewrite <- Hlive. cbn. intuition congruence.
    + intros n Hin. rewrite Hdeleg. apply in_app_iff in Hin.
      case_decide; [subst n; now split|].
      destruct Hin as [Hin|[Heq|[]]]; [apply Hdel, Hin|congruence].
Qed.

Lemma dismissed_well_tracked (n : ptr) (evs : list Event)
    (this : NotificationPresenterLinux) (p : Process) :
  well_tracked this p ->
  well_tracked (fst (dismissed n evs this p)) (snd (dismissed n evs this p)).
Proof.
  intros (Hnd & Hlive & Hdel). unfold well_tracked, dismissed, delegate_of.
  cbn [fst snd notifications_ set_notifications gobjects].
  split; [now apply g_list_remove_NoDup|]. split.
  - intros x. rewrite (g_list_remove_In _ n x Hnd), lookup_heap_free, Hlive.
    case_decide; [subst x|intuition congruence].
    split; [tauto|]. intros [y Hy]. discriminate.
  - intros x Hx. apply (g_list_remove_In _ n x Hnd) in Hx. destruct Hx as [Hx Hne].
    destruct (Hdel x Hx) as [Hx0 Hxd]. split; [exact Hx0|].
    unfold heap_get_data. rewrite lookup_heap_free.
    case_decide; [congruence|exact Hxd].
Qed.

Lemma delegate_of_dismissed (n o : ptr) (evs : list Event)
    (this : NotificationPresenterLinux) (p : Process) :
  o <> n -> delegate_of (snd (dismissed n evs this p)) o = delegate_of p o.
Proof.
  intros Hne. unfold delegate_of, dismissed, heap_get_data. cbn [snd gobjects].
  rewrite lookup_heap_free. case_decide; [congruence|reflexivity].
Qed.

Lemma Create_well_tracked (w : World) (this : NotificationPresenterLinux)
    (p' : Process) :
  Create w process_start = Some (Some this, p') -> well_tracked this p'.
Proof.
  intros H.
  assert (Hg : gobjects p' = ∅ /\ notifications_ this = []).
  { revert H. unfold Create, Init, and_then, not_, Load, notify_is_initted, notify_init,
      lift, emit, modify, modify_this, bind, ret. cbn.
    destruct (w_load w "libnotify.so.4"); cbn;
    [|destruct (w_load w "libnotify.so.1"); cbn;
      [|destruct (w_load w "libnotify.so"); cbn]];
    try (destruct (w_is_initted w); cbn;
         [|destruct (w_init w (w_application_name w)); cbn]);
    intros Heq; inversion Heq; split; reflexivity. }
  destruct Hg as [Hg Hl].
  unfold well_tracked. rewrite Hl, Hg. split; [constructor|]. split.
  - intros n. rewrite lookup_empty. split; [intros []|intros [x Hx]; discriminate].
  - intros n [].
Qed.

Lemma g_list_remove_leaves (l : list ptr) (n0 n : ptr) :
  List.NoDup l ->
  In n l /\ ~ In n (g_list_remove l n0) <-> In n l /\ n = n0.
Proof.
  intros Hnd. rewrite (g_list_remove_In l n0 n Hnd).
  destruct (N.eq_dec n n0); intuition congruence.
Qed.

Lemma g_list_remove_enters (l : list ptr) (n0 n : ptr) :
  List.NoDup l -> ~ (In n (g_list_remove l n0) /\ ~ In n l).
Proof. intros Hnd. rewrite (g_list_remove_In l n0 n Hnd). tauto. Qed.

Lemma run_call_returns (w : World) (c : Call)
    (this : NotificationPresenterLinux) (p : Process) :
  well_tracked this p -> valid_call w c this p ->
  exists this' p',
    run_call w c (this, p) = Some (tt, (this', p')) /\
    well_tracked this' p' /\
    notifications_ this' = next_notifications w c (notifications_ this).
Proof.
  intros Hwt Hvalid. destruct c as [data icon d cb|n0|n0|n0 action]; cbn in Hvalid.
  - destruct Hvalid as [Hd Hfresh].
    pose proof (show_well_tracked w data icon d this p Hwt Hd Hfresh) as Hwt'.
    unfold run_call, bind, next_notifications.
    rewrite ShowNotification_run, (is_null_false d Hd).
    destruct (w_show_error w) as [e|];
      (eexists _, _; split; [reflexivity|]; split; [exact Hwt'|reflexivity]).
  - destruct (proj2 (proj2 Hwt) n0 Hvalid) as [Hn0 Hdel].
    unfold run_call, Run. rewrite CancelNotification_run, (is_null_false _ Hdel).
    eexists _, _. split; [reflexivity|].
    split; [apply (dismissed_well_tracked n0 _ this p Hwt)|reflexivity].
  - unfold run_call, next_notifications. rewrite OnNotificationClosed_run.
    destruct (is_null n0) eqn:Hnull.
    + eexists _, _. split; [reflexivity|]. split; [exact Hwt|reflexivity].
    + destruct Hvalid as [->|Hin0]; [discriminate|].
      destruct (proj2 (proj2 Hwt) n0 Hin0) as [Hn0 Hdel].
      rewrite (is_null_false _ Hdel).
      eexists _, _. split; [reflexivity|].
      split; [apply (dismissed_well_tracked n0 _ this p Hwt)|reflexivity].
  - unfold run_call, next_notifications. rewrite OnNotificationView_run.
    destruct (is_null n0) eqn:Hnull.
    + eexists _, _. split; [reflexivity|]. split; [exact Hwt|reflexivity].
    + destruct Hvalid as [->|Hin0]; [discriminate|].
      destruct (proj2 (proj2 Hwt) n0 Hin0) as [Hn0 Hdel].
      rewrite (is_null_false _ Hdel).
      eexists _, _. split; [reflexivity|].
      split; [apply (dismissed_well_tracked n0 _ this p Hwt)|reflexivity].
Qed.

Lemma appends_show (w : World) (c : Call) (n : ptr) :
  appends w c n ->
  w_show_error w = None /\ n = w_new_notification w /\
  exists data icon d cb, c = CallShow data icon d cb.
Proof. intros (Hc & Herr & Hn). auto. Qed.

Lemma dismisses_iff (c : Call) (n : ptr) :
  dismisses c n <->
  n <> nullptr /\
  match c with
  | CallShow _ _ _ _ => False
  | CallCancel n0 | CallClosed n0 | CallView n0 _ => n0 = n
  end.
Proof.
  unfold dismisses. destruct c as [data icon d cb|n0|n0|n0 action].
  - split; [intros (_ & [H|[H|[a H]]]); discriminate|tauto].
  - split.
    + intros (Hn & [H|[H|[a H]]]); try discriminate. injection H as ->. now split.
    + intros [Hn ->]. split; [exact Hn|now left].
  - split.
    + intros (Hn & [H|[H|[a H]]]); try discriminate. injection H as ->. now split.
    + intros [Hn ->]. split; [exact Hn|right; now left].
  - split.
    + intros (Hn & [H|[H|[a H]]]); try discriminate. injection H as -> _. now split.
    + intros [Hn ->]. split; [exact Hn|right; right; now exists action].
Qed.

(** C1. In a state where the tracking holds, every call that its callers
    can make returns and keeps the tracking.  A notification enters the
    tracked list exactly when the call is a show and
    [notify_notification_show] reports no error for it, and it is then put
    at the end; a tracked notification leaves the list exactly when the call
    cancels it, or reports it closed or clicked; no call changes the
    membership of any other notification. *)
Theorem tracked_list_membership (w : World) (c : Call)
    (this : NotificationPresenterLinux) (p : Process) :
  well_tracked this p -> valid_call w c this p ->
  exists this' p',
    run_call w c (this, p) = Some (tt, (this', p')) /\
    well_tracked this' p' /\
    forall n,
      (In n (notifications_ this') /\ ~ In n (notifications_ this) <-> appends w c n) /\
      (In n (notifications_ this) /\ ~ In n (notifications_ this')
       <-> In n (notifications_ this) /\ dismisses c n) /\
      (appends w c n -> notifications_ this' = notifications_ this ++ [n]).
Proof.
  intros Hwt Hvalid.
  destruct (run_call_returns w c this p Hwt Hvalid) as (this' & p' & Hrun & Hwt' & Hl).
  exists this', p'. split; [exact Hrun|]. split; [exact Hwt'|].
  intros n. rewrite Hl, dismisses_iff.
  pose proof (proj1 Hwt) as Hnd.
  assert (Hnonnull : In n (notifications_ this) -> n <> nullptr)
    by (intros Hin; apply (proj2 (proj2 Hwt) n Hin)).
  destruct c as [data icon d cb|n0|n0|n0 action]; cbn [next_notifications].
  - destruct Hvalid as [Hd Hfresh].
    assert (Hnew : ~ In (w_new_notification w) (notifications_ this)).
    { apply (tracked_is_live this p); [exact Hwt|apply Hfresh]. }
    unfold appends. destruct (w_show_error w) as [e|] eqn:Herr.
    + split; [|split]; [split; [tauto|]|tauto|]; intros (_ & [=] & _).
    + unfold g_list_append. rewrite in_app_iff. cbn [In].
      split; [|split]; [split| |].
      * intros [[Hin|[<-|[]]] Hnot]; [contradiction|]. eauto 8.
      * intros (_ & _ & ->). tauto.
      * tauto.
      * intros (_ & _ & ->). reflexivity.
  - split; [|split].
    + split; [intros H; now apply (g_list_remove_enters _ n0 n Hnd) in H|].
      intros H. apply appends_show in H. destruct H as (_ & _ & ? & ? & ? & ? & [=]).
    + rewrite (g_list_remove_leaves _ n0 n Hnd). intuition congruence.
    + intros H. apply appends_show in H. destruct H as (_ & _ & ? & ? & ? & ? & [=]).
  - split; [|split].
    + split; [|intros H; apply appends_show in H;
               destruct H as (_ & _ & ? & ? & ? & ? & [=])].
      destruct (is_null n0); [tauto|].
      intros H; now apply (g_list_remove_enters _ n0 n Hnd) in H.
    + destruct (is_null n0) eqn:Hnull.
      * apply is_null_true in Hnull. intuition congruence.
      * rewrite (g_list_remove_leaves _ n0 n Hnd). intuition congruence.
    + intros H. apply appends_show in H. destruct H as (_ & _ & ? & ? & ? & ? & [=]).
  - split; [|split].
    + split; [|intros H; apply appends_show in H;
               destruct H as (_ & _ & ? & ? & ? & ? & [=])].
      destruct (is_null n0); [tauto|].
      intros H; now apply (g_list_remove_enters _ n0 n Hnd) in H.
    + destruct (is_null n0) eqn:Hnull.
      * apply is_null_true in Hnull. intuition congruence.
      * rewrite (g_list_remove_leaves _ n0 n Hnd). intuition congruence.
    + intros H. apply appends_show in H. destruct H as (_ & _ & ? & ? & ? & ? & [=]).
Qed.


Lemma well_tracked_start (loader : option string) :
  well_tracked (mkPresenter loader []) process_start.
Proof.
  unfold well_tracked. cbn. split; [constructor|]. split.
  - intros n. rewrite lookup_empty. split; [intros []|intros [x Hx]; discriminate].
  - intros n [].
Qed.

Lemma fresh_objects_start (w : World) (icon : SkBitmap) :
  w_new_notification w <> nullptr -> w_new_pixbuf w <> w_new_notification w ->
  fresh_objects w icon process_start.
Proof.
  intros Hn Hp. unfold fresh_objects. cbn. rewrite !lookup_empty. tauto.
Qed.

Lemma tracking_one_well_tracked : well_tracked (fst tracking_one) (snd tracking_one).
Proof.
  apply (show_well_tracked world_plain sample_data sample_icon 5%N
           (mkPresenter (Some "libnotify.so.4") []) process_start).
  - apply well_tracked_start.
  - discriminate.
  - apply fresh_objects_start; discriminate.
Qed.

Lemma tracked_list_membership_witness :
  (exists this' p',
     run_call world_plain (CallShow sample_data sample_icon 5%N true)
       (new_NotificationPresenterLinux, process_start) = Some (tt, (this', p')) /\
     well_tracked this' p' /\
     forall n,
       (In n (notifications_ this') /\ ~ In n [] <->
        appends world_plain (CallShow sample_data sample_icon 5%N true) n) /\
       (In n [] /\ ~ In n (notifications_ this') <->
        In n [] /\ dismisses (CallShow sample_data sample_icon 5%N true) n) /\
       (appends world_plain (CallShow sample_data sample_icon 5%N true) n ->
        notifications_ this' = [] ++ [n])) /\
  (exists this' p',
     run_call world_plain (CallClosed 16%N) tracking_one = Some (tt, (this', p')) /\
     well_tracked this' p' /\
     forall n,
       (In n (notifications_ this') /\ ~ In n [16%N] <->
        appends world_plain (CallClosed 16%N) n) /\
       (In n [16%N] /\ ~ In n (notifications_ this') <->
        In n [16%N] /\ dismisses (CallClosed 16%N) n) /\
       (appends world_plain (CallClosed 16%N) n ->
        notifications_ this' = [16%N] ++ [n])).
Proof.
  split.
  - apply (tracked_list_membership world_plain (CallShow sample_data sample_icon 5%N true)
             new_NotificationPresenterLinux process_start).
    + apply well_tracked_start.
    + split; [discriminate|apply fresh_objects_start; discriminate].
  - apply (tracked_list_membership world_plain (CallClosed 16%N)
             (fst tracking_one) (snd tracking_one)).
    + apply tracking_one_well_tracked.
    + right. left. reflexivity.
Defined.

(** C3, as the code has it.  When [notify_notification_close] reports an
    error for a tracked notification, [CancelNotification] logs the error
    and then goes on as it does without one: it calls the delegate's
    [NotificationClosed], removes the notification from the tracked list and
    drops it.  The close is not tried again, and the other notifications stay
    tracked. *)
Theorem CancelNotification_error (w : World) (n : ptr)
    (this : NotificationPresenterLinux) (p : Process) (e : GError) :
  well_tracked this p -> In n (notifications_ this) ->
  w_close_error w = Some e ->
  exists this' p',
    CancelNotification w n (this, p) = Some (tt, (this', p')) /\
    delegate_of p n <> nullptr /\
    trace p' = trace p ++ [EvClose n;
                           EvLogError "notify_notification_close" e;
                           EvErrorFree e;
                           EvNotificationClosed (delegate_of p n);
                           EvUnref n] /\
    ~ In n (notifications_ this') /\
    forall m, m <> n -> (In m (notifications_ this') <-> In m (notifications_ this)).
Proof.
  intros Hwt Hin Herr. destruct (proj2 (proj2 Hwt) n Hin) as [Hn Hdel].
  rewrite CancelNotification_run, (is_null_false _ Hdel).
  eexists _, _. split; [reflexivity|]. split; [exact Hdel|].
  unfold dismissed, close_events. rewrite Herr.
  cbn [trace notifications_ set_notifications]. split; [reflexivity|].
  split.
  - rewrite (g_list_remove_In _ n n (proj1 Hwt)). tauto.
  - intros m Hm. rewrite (g_list_remove_In _ n m (proj1 Hwt)). tauto.
Qed.

Lemma CancelNotification_error_witness :
  exists this' p',
    CancelNotification world_close_fails 16%N tracking_one = Some (tt, (this', p')) /\
    delegate_of (snd tracking_one) 16%N <> nullptr /\
    trace p' = trace (snd tracking_one)
               ++ [EvClose 16%N;
                   EvLogError "notify_notification_close" close_failure;
                   EvErrorFree close_failure;
                   EvNotificationClosed (delegate_of (snd tracking_one) 16%N);
                   EvUnref 16%N] /\
    ~ In 16%N (notifications_ this') /\
    forall m, m <> 16%N -> (In m (notifications_ this') <-> In m [16%N]).
Proof.
  apply (CancelNotification_error world_close_fails 16%N (fst tracking_one)
           (snd tracking_one) close_failure).
  - apply tracking_one_well_tracked.
  - left. reflexivity.
  - reflexivity.
Defined.

(** C3, as the claim has it, fails: with notification 16 tracked for
    delegate 5 and a close that reports an error, [CancelNotification] does
    call [NotificationClosed] on the delegate and does take 16 off the
    tracked list. *)
Lemma CancelNotification_error_counterexample :
  w_close_error world_close_fails = Some close_failure /\
  notifications_ (fst tracking_one) = [16%N] /\
  exists this' p',
    CancelNotification world_close_fails 16%N tracking_one = Some (tt, (this', p')) /\
    trace p' = trace (snd tracking_one)
               ++ [EvClose 16%N;
                   EvLogError "notify_notification_close" close_failure;
                   EvErrorFree close_failure;
                   EvNotificationClosed 5%N;
                   EvUnref 16%N] /\
    notifications_ this' = [].
Proof.
  split; [reflexivity|]. split; [reflexivity|].
  eexists _, _. split; [vm_compute; reflexivity|]. split; reflexivity.
Qed.

(** C4. The lifecycle of a tracked notification is relayed to its
    delegate.  A show that succeeds calls [NotificationDisplayed] on the
    delegate it was given, right after the show, and leaves the notification
    tracked and carrying that delegate.  The "closed" signal for a tracked,
    non-null notification calls [NotificationClosed] on the delegate the
    notification carries, and the "default" action calls
    [NotificationClick] on it.  None of these calls, nor a cancel, changes
    the delegate that another tracked notification carries. *)
Theorem lifecycle_relayed (w : World) (this : NotificationPresenterLinux)
    (p : Process) :
  well_tracked this p ->
  (forall data icon d cb,
     d <> nullptr -> fresh_objects w icon p -> w_show_error w = None ->
     exists c this' p' pre,
       ShowNotification w data icon d cb (this, p) = Some (c, (this', p')) /\
       trace p' = trace p ++ pre ++ [EvShow (w_new_notification w);
                                     EvNotificationDisplayed d] /\
       In (w_new_notification w) (notifications_ this') /\
       delegate_of p' (w_new_notification w) = d /\
       forall m, In m (notifications_ this) -> delegate_of p' m = delegate_of p m) /\
  (forall n,
     n <> nullptr -> In n (notifications_ this) ->
     exists this' p',
       OnNotificationClosed n (this, p) = Some (tt, (this', p')) /\
       delegate_of p n <> nullptr /\
       trace p' = trace p ++ [EvNotificationClosed (delegate_of p n); EvUnref n] /\
       forall m, In m (notifications_ this') -> delegate_of p' m = delegate_of p m) /\
  (forall n action,
     n <> nullptr -> In n (notifications_ this) ->
     exists this' p',
       OnNotificationView n action (this, p) = Some (tt, (this', p')) /\
       delegate_of p n <> nullptr /\
       trace p' = trace p ++ [EvNotificationClick (delegate_of p n); EvUnref n] /\
       forall m, In m (notifications_ this') -> delegate_of p' m = delegate_of p m) /\
  (forall n,
     In n (notifications_ this) ->
     exists this' p',
       CancelNotification w n (this, p) = Some (tt, (this', p')) /\
       forall m, In m (notifications_ this') -> delegate_of p' m = delegate_of p m).
Proof.
  intros Hwt. split; [|split; [|split]].
  - intros data icon d cb Hd Hfresh Herr.
    assert (Hnew : ~ In (w_new_notification w) (notifications_ this)).
    { apply (tracked_is_live this p); [exact Hwt|apply Hfresh]. }
    rewrite ShowNotification_run, Herr, (is_null_false d Hd).
    exists (if cb then Some (BindCancelNotification (w_new_notification w)) else None).
    eexists _, _.
    exists ([EvNotificationNew (w_utf16_to_utf8 w (title data))
               (w_utf16_to_utf8 w (body data)) (w_new_notification w);
             EvSetDataFull (w_new_notification w) "delegate" d;
             EvSignalConnect (w_new_notification w) "closed"]
            ++ unity_events w p ++ action_events w p ++ icon_events w icon).
    split; [reflexivity|]. split; [|split; [|split]].
    + unfold show_process, show_events, outcome_events. cbn [trace].
      rewrite Herr, <- !app_assoc. reflexivity.
    + unfold g_list_append. cbn [notifications_ set_notifications].
      apply in_app_iff. right. now left.
    + rewrite delegate_of_show_process by apply Hfresh.
      rewrite Herr. case_decide; [reflexivity|congruence].
    + intros m Hm. rewrite delegate_of_show_process by apply Hfresh.
      case_decide; [subst m; contradiction|reflexivity].
  - intros n Hn Hin. destruct (proj2 (proj2 Hwt) n Hin) as [_ Hdel].
    rewrite OnNotificationClosed_run, (is_null_false n Hn), (is_null_false _ Hdel).
    eexists _, _. split; [reflexivity|]. split; [exact Hdel|]. split; [reflexivity|].
    intros m Hm. apply (delegate_of_dismissed n m _ this p).
    apply (g_list_remove_In _ n m (proj1 Hwt)) in Hm. tauto.
  - intros n action Hn Hin. destruct (proj2 (proj2 Hwt) n Hin) as [_ Hdel].
    rewrite OnNotificationView_run, (is_null_false n Hn), (is_null_false _ Hdel).
    eexists _, _. split; [reflexivity|]. split; [exact Hdel|]. split; [reflexivity|].
    intros m Hm. apply (delegate_of_dismissed n m _ this p).
    apply (g_list_remove_In _ n m (proj1 Hwt)) in Hm. tauto.
  - intros n Hin. destruct (proj2 (proj2 Hwt) n Hin) as [_ Hdel].
    rewrite CancelNotification_run, (is_null_false _ Hdel).
    eexists _, _. split; [reflexivity|].
    intros m Hm. apply (delegate_of_dismissed n m _ this p).
    apply (g_list_remove_In _ n m (proj1 Hwt)) in Hm. tauto.
Qed.

Lemma lifecycle_relayed_witness :
  (exists c this' p' pre,
     ShowNotification world_plain sample_data sample_icon 5%N true
       (new_NotificationPresenterLinux, process_start) = Some (c, (this', p')) /\
     trace p' = trace process_start ++ pre ++ [EvShow 16%N; EvNotificationDisplayed 5%N] /\
     In 16%N (notifications_ this') /\
     delegate_of p' 16%N = 5%N /\
     forall m, In m [] -> delegate_of p' m = delegate_of process_start m) /\
  (exists this' p',
     OnNotificationClosed 16%N tracking_one = Some (tt, (this', p')) /\
     delegate_of (snd tracking_one) 16%N <> nullptr /\
     trace p' = trace (snd tracking_one)
                ++ [EvNotificationClosed (delegate_of (snd tracking_one) 16%N);
                    EvUnref 16%N] /\
     forall m, In m (notifications_ this') ->
               delegate_of p' m = delegate_of (snd tracking_one) m) /\
  (exists this' p',
     OnNotificationView 16%N "default" tracking_one = Some (tt, (this', p')) /\
     delegate_of (snd tracking_one) 16%N <> nullptr /\
     trace p' = trace (snd tracking_one)
                ++ [EvNotificationClick (delegate_of (snd tracking_one) 16%N);
                    EvUnref 16%N] /\
     forall m, In m (notifications_ this') ->
               delegate_of p' m = delegate_of (snd tracking_one) m) /\
  (exists this' p',
     CancelNotification world_plain 16%N tracking_one = Some (tt, (this', p')) /\
     forall m, In m (notifications_ this') ->
               delegate_of p' m = delegate_of (snd tracking_one) m).
Proof.
  split; [|split; [|split]].
  - apply (proj1 (lifecycle_relayed world_plain new_NotificationPresenterLinux
                    process_start (well_tracked_start None))).
    + discriminate.
    + apply fresh_objects_start; discriminate.
    + reflexivity.
  - apply (proj1 (proj2 (lifecycle_relayed world_plain (fst tracking_one)
                           (snd tracking_one) tracking_one_well_tracked))).
    + discriminate.
    + left. reflexivity.
  - apply (proj1 (proj2 (proj2 (lifecycle_relayed world_plain (fst tracking_one)
                                  (snd tracking_one) tracking_one_well_tracked)))).
    + discriminate.
    + left. reflexivity.
  - apply (proj2 (proj2 (proj2 (lifecycle_relayed world_plain (fst tracking_one)
                                  (snd tracking_one) tracking_one_well_tracked)))).
    left. reflexivity.
Defined.

Example tracking_one_shown :
  ShowNotification world_plain sample_data sample_icon 5%N true
    (mkPresenter (Some "libnotify.so.4") [], process_start)
  = Some (Some (BindCancelNotification 16%N), tracking_one).
Proof. vm_compute. reflexivity. Qed.

Example tracking_one_delegate : delegate_of (snd tracking_one) 16%N = 5%N.
Proof. reflexivity. Qed.

Example lifecycle_run :
  option_map (fun r => (notifications_ (fst (snd r)), trace (snd (snd r))))
    (bind (ShowNotification world_plain sample_data blank_icon 5%N true)
          (fun _ => OnNotificationView 16%N "default")
          (new_NotificationPresenterLinux, process_start))
  = Some ([], [EvNotificationNew "Hi" "!" 16%N; EvSetDataFull 16%N "delegate" 5%N;
               EvSignalConnect 16%N "closed"; EvFileEnumerator "/usr/lib" false FILES;
               EvAddAction 16%N "default" "View"; EvShow 16%N;
               EvNotificationDisplayed 5%N; EvNotificationClick 5%N; EvUnref 16%N]).
Proof. reflexivity. Qed.

(** ** Runs of calls, and the scan over the life of a process *)

Lemma run_calls_returns (cs : list (World * Call))
    (this : NotificationPresenterLinux) (p : Process) :
  well_tracked this p -> valid_calls cs (this, p) ->
  exists this' p',
    run_calls cs (this, p) = Some (tt, (this', p')) /\ well_tracked this' p'.
Proof.
  revert this p. induction cs as [|[w c] cs IH]; intros this p Hwt Hvalid.
  - exists this, p. split; [reflexivity|exact Hwt].
  - destruct Hvalid as [Hv Hnext].
    destruct (run_call_returns w c this p Hwt Hv) as (this1 & p1 & Hrun & Hwt1 & _).
    cbn [run_calls]. unfold bind. rewrite Hrun.
    apply IH; [exact Hwt1|]. apply (Hnext _ Hrun).
Qed.

Lemma scans_quiet (t : list Event) :
  (forall e, In e t -> is_scan e = false) -> scans t = 0.
Proof.
  unfold scans. induction t as [|e t IH]; intros H; [reflexivity|].
  rewrite filter_cons. destruct (decide (is_scan e = true)) as [He|He].
  - rewrite (H e (or_introl eq_refl)) in He. discriminate.
  - apply IH. intros x Hx. apply H. now right.
Qed.

Lemma scans_show_events (w : World) (data : PlatformNotificationData) (icon : SkBitmap)
    (d : ptr) (p : Process) :
  scans (show_events w data icon d p) = scans (unity_events w p).
Proof.
  unfold show_events. rewrite (scans_app [_; _; _]), (scans_app (unity_events w p)).
  rewrite (scans_quiet [_; _; _]) by (intros e Hin; cbn in Hin; intuition (subst; reflexivity)).
  rewrite (scans_quiet (action_events w p ++ _)); [lia|].
  intros e Hin. rewrite !in_app_iff in Hin. unfold action_events, icon_events,
    outcome_events in Hin.
  destruct (fst (UnityIsRunning_outcome w p)), (drawsNothing icon), (w_show_error w);
    cbn in Hin; intuition (subst; reflexivity).
Qed.

Lemma show_process_scan_budget (w : World) (data : PlatformNotificationData)
    (icon : SkBitmap) (d : ptr) (p : Process) :
  scan_budget (show_process w data icon d p) = scan_budget p.
Proof.
  unfold scan_budget, show_process. cbn [trace unity_has_result].
  rewrite scans_app, scans_show_events.
  unfold unity_events, UnityIsRunning_outcome.
  destruct (env_set w); [cbn [snd]; change (scans []) with 0; lia|].
  destruct (unity_has_result p) eqn:Hhas; cbn [snd scanned unity_has_result].
  - rewrite Hhas. change (scans []) with 0. lia.
  - change (scans [EvFileEnumerator "/usr/lib" false FILES]) with 1. lia.
Qed.

Lemma dismissed_scan_budget (n : ptr) (evs : list Event)
    (this : NotificationPresenterLinux) (p : Process) :
  (forall e, In e evs -> is_scan e = false) ->
  scan_budget (snd (dismissed n evs this p)) = scan_budget p.
Proof.
  intros Hq. unfold scan_budget, dismissed. cbn [snd trace unity_has_result].
  rewrite scans_app, (scans_quiet evs Hq). lia.
Qed.

Lemma run_call_scan_budget (w : World) (c : Call) (this this' : NotificationPresenterLinux)
    (p p' : Process) :
  run_call w c (this, p) = Some (tt, (this', p')) -> scan_budget p' = scan_budget p.
Proof.
  destruct c as [data icon d cb|n0|n0|n0 action]; unfold run_call, Run.
  - unfold bind. rewrite ShowNotification_run.
    destruct (w_show_error w); [|destruct (is_null d); [discriminate|]];
      intros [= _ <-]; apply show_process_scan_budget.
  - rewrite CancelNotification_run.
    destruct (is_null (delegate_of p n0)); [discriminate|].
    intros H. injection H as _ <-.
    apply (dismissed_scan_budget n0 _ this p).
    intros e Hin. unfold close_events in Hin.
    destruct (w_close_error w); cbn in Hin; intuition (subst; reflexivity).
  - rewrite OnNotificationClosed_run.
    destruct (is_null n0); [intros [= _ <-]; reflexivity|].
    destruct (is_null (delegate_of p n0)); [discriminate|].
    intros H. injection H as _ <-.
    apply (dismissed_scan_budget n0 _ this p).
    intros e Hin. cbn in Hin. intuition (subst; reflexivity).
  - rewrite OnNotificationView_run.
    destruct (is_null n0); [intros [= _ <-]; reflexivity|].
    destruct (is_null (delegate_of p n0)); [discriminate|].
    intros H. injection H as _ <-.
    apply (dismissed_scan_budget n0 _ this p).
    intros e Hin. cbn in Hin. intuition (subst; reflexivity).
Qed.

Lemma run_calls_scan_budget (cs : list (World * Call))
    (this this' : NotificationPresenterLinux) (p p' : Process) :
  run_calls cs (this, p) = Some (tt, (this', p')) -> scan_budget p' = scan_budget p.
Proof.
  revert this p. induction cs as [|[w c] cs IH]; intros this p; cbn [run_calls].
  - intros [= <- <-]. reflexivity.
  - unfold bind. destruct (run_call w c (this, p)) as [[[] [this1 p1]]|] eqn:Hrun;
      [|discriminate].
    intros Hrest. rewrite (IH _ _ Hrest). apply (run_call_scan_budget _ _ _ _ _ _ Hrun).
Qed.

(** C9. [UnityIsRunning] caches its detection.  Whatever the state of the
    process, a run of its calls enumerates /usr/lib at most once, and not at
    all when a result is already held, and two calls of the run made with the
    same state of the environment variable return the same result.  A call
    repeated in the same world returns what the first returned and leaves
    the process as the first left it.  And over any run of calls on a
    presenter, the only way to [UnityIsRunning], the process enumerates
    /usr/lib at most once. *)
Theorem UnityIsRunning_caches :
  (forall (ws : list World) (p : Process),
     exists rs p',
       UnityIsRunning_calls ws p = Some (rs, p') /\
       length rs = length ws /\
       scans (trace p') <= scans (trace p) + (if unity_has_result p then 0 else 1) /\
       forall (i j : nat) (wi wj : World) (ri rj : bool),
         ws !! i = Some wi -> ws !! j = Some wj ->
         rs !! i = Some ri -> rs !! j = Some rj ->
         env_set wi = env_set wj -> ri = rj) /\
  (forall (w : World) (p : Process),
     bind (UnityIsRunning w) (fun _ => UnityIsRunning w) p = UnityIsRunning w p) /\
  (forall (cs : list (World * Call)) (this this' : NotificationPresenterLinux)
          (p p' : Process),
     run_calls cs (this, p) = Some (tt, (this', p')) ->
     scans (trace p') <= scans (trace p) + (if unity_has_result p then 0 else 1)).
Proof.
  split; [|split; [apply UnityIsRunning_twice|]].
  - intros ws p. destruct (unity_has_result p) eqn:Hhas.
    + rewrite (UnityIsRunning_calls_cached ws p Hhas).
      eexists _, _. split; [reflexivity|]. split; [apply length_map|].
      split; [lia|].
      intros i j wi wj ri rj Hwi Hwj Hri Hrj Henv.
      rewrite list_lookup_fmap, Hwi in Hri. rewrite list_lookup_fmap, Hwj in Hrj.
      cbn in Hri, Hrj. injection Hri as <-. injection Hrj as <-.
      rewrite Henv. reflexivity.
    + rewrite (UnityIsRunning_calls_fresh ws p Hhas).
      destruct (first_scan ws) as [w1|].
      * eexists _, _. split; [reflexivity|]. split; [apply length_map|].
        split; [unfold scanned; cbn [trace]; rewrite scans_app;
                change (scans [EvFileEnumerator "/usr/lib" false FILES]) with 1; lia|].
        intros i j wi wj ri rj Hwi Hwj Hri Hrj Henv.
        rewrite list_lookup_fmap, Hwi in Hri. rewrite list_lookup_fmap, Hwj in Hrj.
        cbn in Hri, Hrj. injection Hri as <-. injection Hrj as <-.
        rewrite Henv. reflexivity.
      * eexists _, _. split; [reflexivity|]. split; [apply length_map|].
        split; [lia|].
        intros i j wi wj ri rj Hwi Hwj Hri Hrj Henv.
        rewrite list_lookup_fmap, Hwi in Hri. rewrite list_lookup_fmap, Hwj in Hrj.
        cbn in Hri, Hrj. congruence.
  - intros cs this this' p p' Hrun.
    pose proof (run_calls_scan_budget cs this this' p p' Hrun) as Hb.
    unfold scan_budget in Hb. lia.
Qed.

Lemma UnityIsRunning_caches_witness :
  (exists rs p',
     UnityIsRunning_calls [world_plain; world_env; world_unity] process_start
     = Some (rs, p') /\
     length rs = 3 /\
     scans (trace p') <= 1 /\
     forall (i j : nat) (wi wj : World) (ri rj : bool),
       [world_plain; world_env; world_unity] !! i = Some wi ->
       [world_plain; world_env; world_unity] !! j = Some wj ->
       rs !! i = Some ri -> rs !! j = Some rj ->
       env_set wi = env_set wj -> ri = rj) /\
  bind (UnityIsRunning world_unity) (fun _ => UnityIsRunning world_unity) process_start
  = UnityIsRunning world_unity process_start /\
  (exists this' p',
     run_calls [(world_plain, CallShow sample_data sample_icon 5%N true);
                (world_close_fails, CallShow sample_data blank_icon 6%N false);
                (world_close_fails, CallCancel 16%N)]
       (new_NotificationPresenterLinux, process_start) = Some (tt, (this', p')) /\
     scans (trace p') <= 1).
Proof.
  split; [|split].
  - exact (proj1 UnityIsRunning_caches [world_plain; world_env; world_unity]
             process_start).
  - exact (proj1 (proj2 UnityIsRunning_caches) world_unity process_start).
  - eexists _, _. split; [vm_compute; reflexivity|].
    eapply (proj2 (proj2 UnityIsRunning_caches)
              [(world_plain, CallShow sample_data sample_icon 5%N true);
               (world_close_fails, CallShow sample_data blank_icon 6%N false);
               (world_close_fails, CallCancel 16%N)]
              new_NotificationPresenterLinux _ process_start).
    vm_compute. reflexivity.
Defined.

(** * Further properties *)

(** ** The destructor *)

Lemma g_list_free_full_unref (l : list ptr) (p : Process) :
  g_list_free_full l g_object_unref p
  = Some (tt, mkProcess (unity_has_result p) (unity_result p)
                        (fold_left (fun g o => heap_free o g) l (gobjects p))
                        (trace p ++ map EvUnref l)).
Proof.
  revert p. induction l as [|n l IH]; intros [has res g t].
  - cbn. rewrite app_nil_r. reflexivity.
  - cbn [g_list_free_full]. unfold bind at 1, g_object_unref at 1, emit, modify, bind.
    cbn [fst snd set_trace set_gobjects trace gobjects unity_has_result unity_result].
    rewrite IH.
    cbn [fold_left map trace gobjects unity_has_result unity_result
         set_gobjects set_trace].
    rewrite <- app_assoc. reflexivity.
Qed.

Lemma lookup_fold_heap_free (l : list ptr) (g : gmap N (gmap string N)) (o : ptr) :
  fold_left (fun g o => heap_free o g) l g !! o
  = if existsb (N.eqb o) l then None else g !! o.
Proof.
  revert g. induction l as [|n l IH]; intros g; cbn [fold_left existsb]; [reflexivity|].
  rewrite IH, lookup_heap_free.
  destruct (existsb (N.eqb o) l); [now rewrite orb_true_r|]. rewrite orb_false_r.
  destruct (N.eqb_spec o n) as [->|Hne]; case_decide; congruence.
Qed.

(** X1. Destroying a presenter drops the reference of each tracked
    notification, once and in the order of the list, and does nothing else:
    no delegate is told that its notification is closed, and no notification
    object is left alive. *)
Theorem destructor_releases_all (this : NotificationPresenterLinux) (p : Process) :
  well_tracked this p ->
  exists p',
    NotificationPresenterLinux_destructor this p = Some (tt, p') /\
    trace p' = trace p ++ map EvUnref (notifications_ this) /\
    gobjects p' = ∅ /\
    unity_has_result p' = unity_has_result p /\
    unity_result p' = unity_result p.
Proof.
  intros (_ & Hlive & _).
  assert (Hrun : NotificationPresenterLinux_destructor this p
                 = g_list_free_full (notifications_ this) g_object_unref p).
  { unfold NotificationPresenterLinux_destructor.
    destruct (notifications_ this); reflexivity. }
  rewrite Hrun, g_list_free_full_unref.
  eexists. split; [reflexivity|].
  cbn [trace gobjects unity_has_result unity_result].
  split; [reflexivity|]. split; [|split; reflexivity].
  apply map_eq. intros o. rewrite lookup_fold_heap_free, lookup_empty.
    destruct (existsb (N.eqb o) (notifications_ this)) eqn:Hex; [reflexivity|].
    destruct (gobjects p !! o) as [tbl|] eqn:Ho; [|exact Ho].
    assert (Hin : In o (notifications_ this)) by (apply Hlive; now exists tbl).
    assert (Hex' : existsb (N.eqb o) (notifications_ this) = true).
    { apply existsb_exists. exists o. split; [exact Hin|apply N.eqb_refl]. }
    congruence.
Qed.

Lemma destructor_releases_all_witness :
  exists p',
    NotificationPresenterLinux_destructor (fst tracking_one) (snd tracking_one)
    = Some (tt, p') /\
    trace p' = trace (snd tracking_one) ++ map EvUnref [16%N] /\
    gobjects p' = ∅ /\
    unity_has_result p' = unity_has_result (snd tracking_one) /\
    unity_result p' = unity_result (snd tracking_one).
Proof.
  exact (destructor_releases_all (fst tracking_one) (snd tracking_one)
           tracking_one_well_tracked).
Defined.

(** ** Objects, closures and undefined calls *)

(** X2. [ShowNotification] leaks no object.  With fresh objects from the
    allocator, a show that fails leaves the live GObjects exactly as they
    were, and a show that succeeds adds exactly one, the notification, which
    carries the delegate and nothing else; the pixbuf is gone either way. *)
Theorem ShowNotification_objects (w : World) (data : PlatformNotificationData)
    (icon : SkBitmap) (d : ptr) (cb : bool) (this : NotificationPresenterLinux)
    (p : Process) :
  fresh_objects w icon p ->
  (w_show_error w = None -> d <> nullptr) ->
  exists c this' p',
    ShowNotification w data icon d cb (this, p) = Some (c, (this', p')) /\
    gobjects p'
    = match w_show_error w with
      | Some _ => gobjects p
      | None => <[w_new_notification w := <["delegate" := d]> ∅]> (gobjects p)
      end.
Proof.
  intros (Hn & Hfresh & Hpix) Hd.
  destruct (ShowNotification_defined w data icon d cb this p Hd) as (c & this' & Hrun).
  eexists _, _, _. split; [exact Hrun|].
  unfold show_process. cbn [gobjects]. apply map_eq. intros o.
  pose proof (show_heap_lookup w icon d (gobjects p) o Hpix) as Hlook.
  unfold ptr in Hlook. rewrite Hlook.
  destruct (w_show_error w) as [e|].
  - case_decide; [subst o; symmetry; exact Hfresh|reflexivity].
  - rewrite lookup_insert. repeat case_decide; subst; try reflexivity; contradiction.
Qed.

Lemma ShowNotification_objects_witness :
  (exists c this' p',
     ShowNotification world_plain sample_data sample_icon 5%N true
       (new_NotificationPresenterLinux, process_start) = Some (c, (this', p')) /\
     gobjects p' = <[16%N := <["delegate" := 5%N]> ∅]> (gobjects process_start)) /\
  (exists c this' p',
     ShowNotification world_show_fails sample_data sample_icon 5%N true
       (new_NotificationPresenterLinux, process_start) = Some (c, (this', p')) /\
     gobjects p' = gobjects process_start).
Proof.
  split.
  - apply (ShowNotification_objects world_plain sample_data sample_icon 5%N true
             new_NotificationPresenterLinux process_start).
    + apply fresh_objects_start; discriminate.
    + intros _. discriminate.
  - apply (ShowNotification_objects world_show_fails sample_data sample_icon 5%N true
             new_NotificationPresenterLinux process_start).
    + apply fresh_objects_start; discriminate.
    + discriminate.
Defined.

Lemma g_list_remove_app_last (l : list ptr) (n : ptr) :
  ~ In n l -> g_list_remove (g_list_append l n) n = l.
Proof.
  unfold g_list_append. induction l as [|x l IH]; intros Hn; cbn.
  - now rewrite N.eqb_refl.
  - destruct (N.eqb_spec x n) as [->|Hne]; [exfalso; apply Hn; now left|].
    rewrite IH; [reflexivity|]. intros Hin. apply Hn. now right.
Qed.

(** X3. Showing and then cancelling is a round trip.  After a show that
    succeeds, running the closure it stored, whatever the close reports,
    tells the delegate of the show that the notification is closed and puts
    the presenter and the live GObjects back exactly as they were before the
    show. *)
Theorem show_then_cancel_restores (w w' : World) (data : PlatformNotificationData)
    (icon : SkBitmap) (d : ptr) (this : NotificationPresenterLinux) (p : Process) :
  well_tracked this p -> fresh_objects w icon p -> d <> nullptr ->
  w_show_error w = None ->
  exists c this1 p1 p2,
    ShowNotification w data icon d true (this, p) = Some (Some c, (this1, p1)) /\
    Run w' c (this1, p1) = Some (tt, (this, p2)) /\
    gobjects p2 = gobjects p /\
    trace p2 = trace p1 ++ close_events w' (w_new_notification w)
                        ++ [EvNotificationClosed d; EvUnref (w_new_notification w)].
Proof.
  intros Hwt Hfresh Hd Herr.
  assert (Hnew : ~ In (w_new_notification w) (notifications_ this)).
  { apply (tracked_is_live this p); [exact Hwt|apply Hfresh]. }
  assert (Hdel : delegate_of (show_process w data icon d p) (w_new_notification w) = d).
  { rewrite delegate_of_show_process by apply Hfresh.
    rewrite Herr. case_decide; [reflexivity|congruence]. }
  rewrite ShowNotification_run, Herr, (is_null_false d Hd).
  eexists _, _, _, _. split; [reflexivity|].
  unfold Run. rewrite CancelNotification_run, Hdel, (is_null_false d Hd).
  unfold dismissed. cbn [notifications_ set_notifications trace gobjects].
  rewrite (g_list_remove_app_last _ _ Hnew).
  split; [destruct this; reflexivity|]. split; [|reflexivity].
  unfold show_process. cbn [gobjects]. apply map_eq. intros o.
  pose proof (show_heap_lookup w icon d (gobjects p) o (proj2 (proj2 Hfresh))) as Hlook.
  rewrite lookup_heap_free.
  destruct (decide (w_new_notification w = o)) as [<-|Hne]; [symmetry; apply Hfresh|].
  etransitivity; [exact Hlook|]. rewrite decide_False by congruence. reflexivity.
Qed.

Lemma show_then_cancel_restores_witness :
  exists c this1 p1 p2,
    ShowNotification world_plain sample_data sample_icon 5%N true
      (new_NotificationPresenterLinux, process_start) = Some (Some c, (this1, p1)) /\
    Run world_close_fails c (this1, p1) = Some (tt, (new_NotificationPresenterLinux, p2)) /\
    gobjects p2 = gobjects process_start /\
    trace p2 = trace p1 ++ close_events world_close_fails 16%N
                        ++ [EvNotificationClosed 5%N; EvUnref 16%N].
Proof.
  apply (show_then_cancel_restores world_plain world_close_fails sample_data sample_icon
           5%N new_NotificationPresenterLinux process_start).
  - apply well_tracked_start.
  - apply fresh_objects_start; discriminate.
  - discriminate.
  - reflexivity.
Defined.

Lemma delegate_of_dismissed_self (n : ptr) (evs : list Event)
    (this : NotificationPresenterLinux) (p : Process) :
  delegate_of (snd (dismissed n evs this p)) n = nullptr.
Proof.
  unfold delegate_of, dismissed, heap_get_data. cbn [snd gobjects].
  rewrite lookup_heap_free. case_decide; [reflexivity|congruence].
Qed.

Lemma dismissing_call_dismissed (w : World) (c : Call) (n : ptr)
    (this this' : NotificationPresenterLinux) (p p' : Process) :
  dismisses c n -> run_call w c (this, p) = Some (tt, (this', p')) ->
  exists evs, (this', p') = dismissed n evs this p.
Proof.
  intros Hc. apply dismisses_iff in Hc. destruct Hc as [Hn Hc].
  destruct c as [data icon d cb|n0|n0|n0 action]; [destruct Hc| | |]; subst n0;
    unfold run_call, Run.
  - rewrite CancelNotification_run.
    destruct (is_null (delegate_of p n)); [discriminate|].
    intros [= <- <-]. eexists. reflexivity.
  - rewrite OnNotificationClosed_run, (is_null_false n Hn).
    destruct (is_null (delegate_of p n)); [discriminate|].
    intros [= <- <-]. eexists. reflexivity.
  - rewrite OnNotificationView_run, (is_null_false n Hn).
    destruct (is_null (delegate_of p n)); [discriminate|].
    intros [= <- <-]. eexists. reflexivity.
Qed.

(** X4. A notification can be dismissed once.  When a call that cancels a
    notification, or reports it closed or clicked, has returned, the object
    is gone, and a second such call for the same notification made next (a
    cancel closure run late, a signal delivered again) is undefined: nothing
    in the code guards against it. *)
Theorem dismissed_twice_undefined (w w' : World) (c c' : Call) (n : ptr)
    (this this' : NotificationPresenterLinux) (p p' : Process) :
  dismisses c n -> run_call w c (this, p) = Some (tt, (this', p')) ->
  dismisses c' n ->
  run_call w' c' (this', p') = None.
Proof.
  intros Hc Hrun Hc'.
  destruct (dismissing_call_dismissed w c n this this' p p' Hc Hrun) as [evs Heq].
  assert (Hdel : delegate_of p' n = nullptr).
  { replace p' with (snd (dismissed n evs this p)) by (now rewrite <- Heq).
    apply delegate_of_dismissed_self. }
  apply dismisses_iff in Hc'. destruct Hc' as [Hn Hc'].
  destruct c' as [data icon d cb|n0|n0|n0 action]; [destruct Hc'| | |]; subst n0;
    unfold run_call, Run.
  - rewrite CancelNotification_run, Hdel. reflexivity.
  - rewrite OnNotificationClosed_run, (is_null_false n Hn), Hdel. reflexivity.
  - rewrite OnNotificationView_run, (is_null_false n Hn), Hdel. reflexivity.
Qed.

Lemma dismissed_twice_undefined_witness :
  exists s',
    run_call world_plain (CallClosed 16%N) tracking_one = Some (tt, s') /\
    run_call world_close_fails (CallCancel 16%N) s' = None.
Proof.
  eexists (_, _). split; [vm_compute; reflexivity|].
  eapply (dismissed_twice_undefined world_plain world_close_fails
            (CallClosed 16%N) (CallCancel 16%N) 16%N
            (fst tracking_one) _ (snd tracking_one) _).
  - split; [discriminate|right; now left].
  - vm_compute. reflexivity.
  - split; [discriminate|now left].
Defined.

Lemma is_null_iff (o : ptr) : is_null o = true <-> o = nullptr.
Proof. unfold is_null. apply N.eqb_eq. Qed.

(** X5. The calls of a presenter are undefined only where they would call
    through a null delegate: [ShowNotification] exactly when the show
    succeeds and it was given no delegate (a failed show never touches the
    delegate), [CancelNotification] exactly when the notification carries no
    delegate, and the two callbacks exactly when the notification is not
    null and carries no delegate. *)
Theorem undefined_iff_null_delegate (w : World) (data : PlatformNotificationData)
    (icon : SkBitmap) (d : ptr) (cb : bool) (n : ptr) (action : string)
    (this : NotificationPresenterLinux) (p : Process) :
  (ShowNotification w data icon d cb (this, p) = None
   <-> w_show_error w = None /\ d = nullptr) /\
  (CancelNotification w n (this, p) = None <-> delegate_of p n = nullptr) /\
  (OnNotificationClosed n (this, p) = None
   <-> n <> nullptr /\ delegate_of p n = nullptr) /\
  (OnNotificationView n action (this, p) = None
   <-> n <> nullptr /\ delegate_of p n = nullptr).
Proof.
  rewrite ShowNotification_run, CancelNotification_run, OnNotificationClosed_run,
    OnNotificationView_run.
  rewrite <- !is_null_iff.
  destruct (w_show_error w), (is_null d), (is_null n), (is_null (delegate_of p n));
    repeat split; intros; try discriminate; try tauto; try congruence;
    repeat match goal with H : _ /\ _ |- _ => destruct H end;
    try discriminate; try congruence.
Qed.

(** ** Create, and what ShowNotification sets up *)

(** X6. All that [Create] does to the process is talk to the loader: it
    asks for the library names in order up to the first that loads; then, if
    one loaded, it asks [notify_is_initted] once; then, only if libnotify is
    not initialised, it calls [notify_init] once, with the application name.
    When no library loads, libnotify is not called at all.  The globals and
    the GObjects are not touched. *)
Theorem Create_effects (w : World) (p : Process) :
  exists r p',
    Create w p = Some (r, p') /\
    trace p'
    = trace p
      ++ map EvLoad (tried (w_load w) libnotify_names)
      ++ (if existsb (w_load w) libnotify_names
          then EvNotifyIsInitted ::
               (if w_is_initted w then []
                else [EvNotifyInit (w_application_name w)])
          else []) /\
    gobjects p' = gobjects p /\
    unity_has_result p' = unity_has_result p /\
    unity_result p' = unity_result p.
Proof.
  destruct p as [has res g t].
  unfold Create, Init, and_then, not_, Load, notify_is_initted, notify_init,
    lift, emit, modify, modify_this, bind, ret.
  cbn.
  destruct (w_load w "libnotify.so.4") eqn:L4; cbn;
  [|destruct (w_load w "libnotify.so.1") eqn:L1; cbn;
    [|destruct (w_load w "libnotify.so") eqn:L0; cbn]];
  try (destruct (w_is_initted w) eqn:I1; cbn;
       [|destruct (w_init w (w_application_name w)) eqn:I2; cbn]);
  (eexists _, _; split; [reflexivity|]; cbn;
   rewrite ?L4, ?L1, ?L0; cbn; rewrite <- ?app_assoc; repeat split; reflexivity).
Qed.

Example Create_effects_none :
  option_map (fun r => (fst r, trace (snd r)))
    (Create (mkWorld (fun _ => None) (fun _ _ _ => []) (fun _ => false) true
                     (fun _ => true) "brightray" ascii_utf8 16%N 32%N None None)
            process_start)
  = Some (None, [EvLoad "libnotify.so.4"; EvLoad "libnotify.so.1"; EvLoad "libnotify.so"]).
Proof. reflexivity. Qed.

(** X7. Whatever comes of it, [ShowNotification] first creates one
    notification with the title and body converted to UTF-8, attaches the
    delegate to it under the key "delegate" and connects the "closed"
    signal, in that order, and only later asks libnotify to show it; it
    creates, attaches and connects nothing else. *)
Theorem ShowNotification_setup (w : World) (data : PlatformNotificationData)
    (icon : SkBitmap) (d : ptr) (cb : bool) (this : NotificationPresenterLinux)
    (p : Process) :
  (w_show_error w = None -> d <> nullptr) ->
  exists c s' rest,
    ShowNotification w data icon d cb (this, p) = Some (c, s') /\
    trace (snd s')
    = trace p
      ++ [EvNotificationNew (w_utf16_to_utf8 w (title data))
            (w_utf16_to_utf8 w (body data)) (w_new_notification w);
          EvSetDataFull (w_new_notification w) "delegate" d;
          EvSignalConnect (w_new_notification w) "closed"]
      ++ rest /\
    shows_of rest = [w_new_notification w] /\
    forall e, In e rest -> is_setup_event e = false.
Proof.
  intros Hd.
  destruct (ShowNotification_defined w data icon d cb this p Hd) as (c & this' & ->).
  eexists _, _, _. split; [reflexivity|]. split; [reflexivity|].
  destruct (unity_events_quiet w p) as (Hu1 & _ & _).
  destruct (action_events_quiet w p) as (Ha1 & _).
  destruct (outcome_events_quiet w d) as (Ho1 & _ & _).
  split.
  - rewrite !shows_of_app, Hu1, Ha1, Ho1. unfold icon_events.
    destruct (drawsNothing icon); reflexivity.
  - intros e Hin. rewrite !in_app_iff in Hin.
    unfold unity_events, action_events, icon_events, outcome_events in Hin.
    destruct (env_set w), (unity_has_result p), (fst (UnityIsRunning_outcome w p)),
      (drawsNothing icon), (w_show_error w);
      cbn in Hin; intuition (subst; reflexivity).
Qed.

Lemma ShowNotification_setup_witness :
  exists c s' rest,
    ShowNotification world_unity sample_data blank_icon 5%N false
      (new_NotificationPresenterLinux, process_start) = Some (c, s') /\
    trace (snd s')
    = trace process_start
      ++ [EvNotificationNew "Hi" "!" 16%N;
          EvSetDataFull 16%N "delegate" 5%N;
          EvSignalConnect 16%N "closed"]
      ++ rest /\
    shows_of rest = [16%N] /\
    forall e, In e rest -> is_setup_event e = false.
Proof.
  apply (ShowNotification_setup world_unity sample_data blank_icon 5%N false
           new_NotificationPresenterLinux process_start).
  intros _. discriminate.
Defined.

Lemma timeouts_of_app (t1 t2 : list Event) :
  timeouts_of (t1 ++ t2) = timeouts_of t1 ++ timeouts_of t2.
Proof. apply flat_map_app. Qed.

Lemma unrefs_of_app (t1 t2 : list Event) :
  unrefs_of (t1 ++ t2) = unrefs_of t1 ++ unrefs_of t2.
Proof. apply flat_map_app. Qed.

(** X8. [ShowNotification] sets a timeout only on a notification whose
    icon draws something, and then it is [NOTIFY_EXPIRES_DEFAULT]; without an
    icon no timeout is set.  Of the objects it creates, it drops the pixbuf
    once, before the show, and the notification only when the show fails. *)
Theorem ShowNotification_timeout_and_unrefs (w : World)
    (data : PlatformNotificationData) (icon : SkBitmap) (d : ptr) (cb : bool)
    (this : NotificationPresenterLinux) (p : Process) :
  (w_show_error w = None -> d <> nullptr) ->
  exists c s' evs,
    ShowNotification w data icon d cb (this, p) = Some (c, s') /\
    trace (snd s') = trace p ++ evs /\
    timeouts_of evs
    = (if drawsNothing icon then []
       else [(w_new_notification w, NOTIFY_EXPIRES_DEFAULT)]) /\
    unrefs_of evs
    = (if drawsNothing icon then [] else [w_new_pixbuf w])
      ++ (match w_show_error w with
          | Some _ => [w_new_notification w]
          | None => []
          end).
Proof.
  intros Hd.
  destruct (ShowNotification_defined w data icon d cb this p Hd) as (c & this' & ->).
  eexists _, _, _. split; [reflexivity|]. split; [reflexivity|].
  unfold show_events, unity_events, action_events, icon_events, outcome_events.
  rewrite !timeouts_of_app, !unrefs_of_app.
  destruct (env_set w), (unity_has_result p), (fst (UnityIsRunning_outcome w p)),
    (drawsNothing icon), (w_show_error w); split; reflexivity.
Qed.

Lemma ShowNotification_timeout_and_unrefs_witness :
  exists c s' evs,
    ShowNotification world_show_fails sample_data sample_icon 5%N true
      (new_NotificationPresenterLinux, process_start) = Some (c, s') /\
    trace (snd s') = trace process_start ++ evs /\
    timeouts_of evs = [(16%N, NOTIFY_EXPIRES_DEFAULT)] /\
    unrefs_of evs = [32%N] ++ [16%N].
Proof.
  apply (ShowNotification_timeout_and_unrefs world_show_fails sample_data sample_icon
           5%N true new_NotificationPresenterLinux process_start).
  discriminate.
Defined.

(** ** The tracked list over the life of a presenter *)






Lemma run_call_loader (w : World) (c : Call) (this this' : NotificationPresenterLinux)
    (p p' : Process) :
  run_call w c (this, p) = Some (tt, (this', p')) ->
  libnotify_loader_ this' = libnotify_loader_ this.
Proof.
  destruct c as [data icon d cb|n0|n0|n0 action]; unfold run_call, Run.
  - unfold bind. rewrite ShowNotification_run.
    destruct (w_show_error w); [|destruct (is_null d); [discriminate|]];
      intros [= <- _]; reflexivity.
  - rewrite CancelNotification_run.
    destruct (is_null (delegate_of p n0)); [discriminate|].
    intros [= <- _]. reflexivity.
  - rewrite OnNotificationClosed_run.
    destruct (is_null n0); [intros [= <- _]; reflexivity|].
    destruct (is_null (delegate_of p n0)); [discriminate|].
    intros [= <- _]. reflexivity.
  - rewrite OnNotificationView_run.
    destruct (is_null n0); [intros [= <- _]; reflexivity|].
    destruct (is_null (delegate_of p n0)); [discriminate|].
    intros [= <- _]. reflexivity.
Qed.

Lemma run_calls_loader (cs : list (World * Call))
    (this this' : NotificationPresenterLinux) (p p' : Process) :
  run_calls cs (this, p) = Some (tt, (this', p')) ->
  libnotify_loader_ this' = libnotify_loader_ this.
Proof.
  revert this p. induction cs as [|[w c] cs IH]; intros this p; cbn [run_calls].
  - intros [= <- _]. reflexivity.
  - unfold bind. destruct (run_call w c (this, p)) as [[[] [this1 p1]]|] eqn:Hrun;
      [|discriminate].
    intros Hrest. rewrite (IH _ _ Hrest). apply (run_call_loader _ _ _ _ _ _ Hrun).
Qed.

(** X10. The tracking holds for the whole life of a presenter.  From the
    presenter that [Create] returns in a starting process, every run of
    calls that its callers can make returns, and at its end the presenter
    still tracks each open notification once, the tracked notifications are
    still exactly the live GObjects, each still carries a delegate, and the
    presenter still holds the library that [Create] loaded. *)
Theorem presenter_life_well_tracked (w0 : World) (cs : list (World * Call))
    (this : NotificationPresenterLinux) (p0 : Process) :
  Create w0 process_start = Some (Some this, p0) ->
  valid_calls cs (this, p0) ->
  exists this' p',
    run_calls cs (this, p0) = Some (tt, (this', p')) /\
    well_tracked this' p' /\
    libnotify_loader_ this' = libnotify_loader_ this /\
    libnotify_loader_ this = find (w_load w0) libnotify_names.
Proof.
  intros Hcreate Hvalid.
  pose proof (Create_well_tracked w0 this p0 Hcreate) as Hwt.
  destruct (run_calls_returns cs this p0 Hwt Hvalid) as (this' & p' & Hrun & Hwt').
  exists this', p'. split; [exact Hrun|]. split; [exact Hwt'|].
  split; [exact (run_calls_loader cs this this' p0 p' Hrun)|].
  revert Hcreate. unfold Create, Init, and_then, not_, Load, notify_is_initted,
    notify_init, lift, emit, modify, modify_this, bind, ret. cbn.
  destruct (w_load w0 "libnotify.so.4"); cbn;
    [|destruct (w_load w0 "libnotify.so.1"); cbn;
      [|destruct (w_load w0 "libnotify.so"); cbn]];
    try (destruct (w_is_initted w0); cbn;
         [|destruct (w_init w0 (w_application_name w0)); cbn]);
    intros Heq; inversion Heq; reflexivity.
Qed.

Lemma sample_run_valid : valid_calls sample_run created.
Proof.
  unfold sample_run. cbn [valid_calls fst snd]. split.
  { split; [discriminate|]. repeat split; (discriminate || reflexivity). }
  intros s' H. vm_compute in H. injection H as <-. cbn [valid_calls fst snd]. split.
  { split; [discriminate|]. repeat split; (discriminate || reflexivity). }
  intros s' H. vm_compute in H. injection H as <-. cbn [valid_calls fst snd]. split.
  { right. left. reflexivity. }
  intros s' H. vm_compute in H. injection H as <-. cbn [valid_calls fst snd]. split.
  { left. reflexivity. }
  intros s' H. exact I.
Qed.

Lemma presenter_life_well_tracked_witness :
  exists this' p',
    run_calls sample_run created = Some (tt, (this', p')) /\
    well_tracked this' p' /\
    libnotify_loader_ this' = libnotify_loader_ (fst created) /\
    libnotify_loader_ (fst created) = find (w_load world_plain) libnotify_names.
Proof.
  apply (presenter_life_well_tracked world_plain sample_run (fst created) (snd created)).
  - reflexivity.
  - exact sample_run_valid.
Defined.






Example sample_run_result :
  option_map (fun r => (notifications_ (fst (snd r)),
                        List.filter is_delegate_event (trace (snd (snd r)))))
    (run_calls sample_run created)
  = Some ([], [EvNotificationDisplayed 5%N; EvNotificationDisplayed 6%N;
               EvNotificationClosed 5%N; EvNotificationClosed 6%N]).
Proof. vm_compute. reflexivity. Qed.
